(** * Serializers and connection bootstrap of the analytics data API

    A shallow embedding of [analytics_data_api/v0/serializers.py] and
    [analytics_data_api/v0/apps.py].  Python values are a small dynamic
    universe, dicts and attribute bags are [gmap string _], raised exceptions
    are an explicit outcome, and the part of Django REST framework that the
    serializer classes are written against is the module [DRF]. *)

From Stdlib Require Import ZArith PrimFloat Ascii.
From stdpp Require Import gmap strings list fin_maps.

Open Scope string_scope.
Open Scope list_scope.
Open Scope Z_scope.

(** ** Python values *)

Module Py.

(** [datetime.date] and [datetime.datetime]. *)
Record date := Date { year : Z; month : Z; day : Z }.

Record datetime := DateTime {
  date_part : date; hour : Z; minute : Z; second : Z
}.

#[warnings="-register-all"]
Inductive value :=
| VNone
| VBool (b : bool)
| VInt (n : Z)
| VFloat (x : float)
| VStr (s : string)
| VDate (d : date)
| VDateTime (d : datetime)
| VList (l : list value).

(** Exceptions the modelled code can raise. *)
Inductive exn :=
| KeyError (key : string)
| AttributeError (name : string)
| ValueError
| TypeError
| ImportError (name : string).

Inductive result (A : Type) :=
| Ok (a : A)
| Raise (e : exn).
Arguments Ok {A} a.
Arguments Raise {A} e.

#[export] Instance result_ret : MRet result := fun A a => Ok a.

#[export] Instance result_bind : MBind result := fun A B k r =>
  match r with
  | Ok a => k a
  | Raise e => Raise e
  end.

(** [bool(v)]. *)
Definition truthy (v : value) : bool :=
  match v with
  | VNone => false
  | VBool b => b
  | VInt n => negb (n =? 0)
  | VFloat x => negb (PrimFloat.eqb x 0%float)
  | VStr s => negb (String.eqb s EmptyString)
  | VDate _ => true
  | VDateTime _ => true
  | VList l => match l with [] => false | _ => true end
  end.

(** [v is None]. *)
Definition is_none (v : value) : bool :=
  match v with VNone => true | _ => false end.

(** A [dict] with string keys, and an object seen through its attributes. *)
Abbreviation dict := (gmap string value).

Record object := Object { attrs_of : gmap string value }.

(** [d.get(key, default)] and [getattr(o, name, default)]. *)
Definition dict_get (d : dict) (key : string) (default : value) : value :=
  match d !! key with
  | Some v => v
  | None => default
  end.

Definition getattr_default (o : object) (name : string) (default : value) : value :=
  match attrs_of o !! name with
  | Some v => v
  | None => default
  end.

(** An [OrderedDict]: keys in insertion order, looked up by the first hit. *)
Fixpoint odict_get (d : list (string * value)) (key : string) : option value :=
  match d with
  | [] => None
  | (k, v) :: d' => if decide (k = key) then Some v else odict_get d' key
  end.

(** Lower-casing of text that is all ASCII, where [str.lower()] and
    [unicode.lower()] agree: the letters A-Z go to a-z, every other character
    stays.  What [.lower()] makes of text with other characters is not
    decided here: see [text_lower]. *)
Definition lower_letter (c : ascii) : ascii :=
  let n := nat_of_ascii c in
  if ((65 <=? n)%nat && (n <=? 90)%nat)%bool then ascii_of_nat (n + 32) else c.

Fixpoint ascii_lower (s : string) : string :=
  match s with
  | EmptyString => EmptyString
  | String c s' => String (lower_letter c) (ascii_lower s')
  end.

(** Text is held as its UTF-8 bytes: it is ASCII when every byte is below
    128. *)
Fixpoint is_ascii (s : string) : bool :=
  match s with
  | EmptyString => true
  | String c s' => ((nat_of_ascii c <? 128)%nat && is_ascii s')%bool
  end.

End Py.
Export Py.

(** ** The serializer base classes of Django REST framework 3

    The part of [rest_framework.serializers] and [rest_framework.fields] that
    the classes of [serializers.py] inherit: how a declared field reads its
    attribute from the instance, how each field class renders it, and the loop
    of [Serializer.to_representation]. *)

Module DRF.

Inductive kind :=
| CharField
| IntegerField
| BooleanField
| DateField (format : string)
| DateTimeField (format : string).

(** What the interpreter and the installed release decide.  [strftime] and
    [strftime_date] are the text a date field with a format makes of a
    [datetime] and of a [date] ([value.strftime(format)], after whatever the
    release does about time zones and the ISO format marker);
    [coerce] is what a field class makes of a value of another Python type
    than its own ([int('12')], [unicode(3)], a date field given a [str]);
    [default_on_output] tells whether [Field.get_attribute] falls back on a
    declared [default] when the attribute is missing (later 3.x releases) or
    re-raises the lookup error (earlier ones);
    [unicode_lower] is [.lower()] on text that is not all ASCII, by the case
    tables of the interpreter: it lowers the accented and other cased
    letters, some of them to ASCII letters. *)
Record runtime := Runtime {
  strftime : string -> datetime -> string;
  strftime_date : string -> date -> string;
  coerce : kind -> value -> result value;
  default_on_output : bool;
  unicode_lower : string -> string
}.

(** [text.lower()] on the unicode text of a model column: [ascii_lower] on
    ASCII text, the interpreter's tables on any other. *)
Definition text_lower (R : runtime) (text : string) : string :=
  if is_ascii text then ascii_lower text else unicode_lower R text.

(** A declared field reading an attribute: [source] is the attribute name
    (the field name unless given), [default_value] is [None] for [empty]. *)
Record attr_field := AttrField {
  source : option string;
  required : bool;
  default_value : option value;
  field_kind : kind
}.

(** [CharField()], [IntegerField(default=0)] and the like: [required] is true
    unless a default is given. *)
Definition declare (k : kind) : attr_field :=
  {| source := None; required := true; default_value := None; field_kind := k |}.

Definition declare_default (k : kind) (d : value) : attr_field :=
  {| source := None; required := false; default_value := Some d; field_kind := k |}.

(** [IntegerField(required=False)]. *)
Definition declare_optional (k : kind) : attr_field :=
  {| source := None; required := false; default_value := None; field_kind := k |}.

Definition declare_source (k : kind) (src : string) : attr_field :=
  {| source := Some src; required := true; default_value := None; field_kind := k |}.

(** One step of [rest_framework.fields.get_attribute]: [instance[attr]] on a
    mapping, [getattr(instance, attr)] on anything else. *)
Class Attrs (I : Type) := attr : I -> string -> result value.

#[export] Instance dict_attrs : Attrs dict := fun d name =>
  match d !! name with
  | Some v => Ok v
  | None => Raise (KeyError name)
  end.

#[export] Instance object_attrs : Attrs object := fun o name =>
  match attrs_of o !! name with
  | Some v => Ok v
  | None => Raise (AttributeError name)
  end.

(** A field of a serializer whose instances have type [I]: a declared field
    that reads an attribute, or a [SerializerMethodField] bound to its
    [get_<name>] method. *)
Inductive field (I : Type) :=
| Field (A : Attrs I) (a : attr_field)
| SerializerMethodField (method : I -> result value).
Arguments Field {I A} a.
Arguments SerializerMethodField {I} method.

Inductive attribute :=
| Got (v : value)
| SkipField
| Failed (e : exn).

Section Serializer.
Context (R : runtime) {I : Type}.

(** [Field.get_attribute]. *)
Definition get_attribute `{!Attrs I} (name : string) (f : attr_field) (instance : I)
  : attribute :=
  match attr instance (default name (source f)) with
  | Ok v => Got v
  | Raise e =>
      if default_on_output R then
        match default_value f with
        | Some d => Got d
        | None => if required f then Failed e else SkipField
        end
      else
        match required f, default_value f with
        | false, None => SkipField
        | _, _ => Failed e
        end
  end.

(** [to_representation] of the field classes, on a value that is not [None]. *)
Definition field_to_representation (k : kind) (v : value) : result value :=
  match k, v with
  | CharField, VStr s => Ok (VStr s)
  | IntegerField, VInt n => Ok (VInt n)
  | BooleanField, VBool b => Ok (VBool b)
  | DateField fmt, VDate d => Ok (VStr (strftime_date R fmt d))
  | DateTimeField fmt, VDateTime d => Ok (VStr (strftime R fmt d))
  | _, _ => coerce R k v
  end.

(** The body of the loop of [Serializer.to_representation] for one field:
    [None] when the field is skipped.  A method field has source ['*'], so
    its attribute is the instance itself and its representation is what the
    method returns. *)
Definition serialize_field (name : string) (f : field I) (instance : I)
  : result (option value) :=
  match f with
  | SerializerMethodField method => v ← method instance; Ok (Some v)
  | Field a =>
      match get_attribute name a instance with
      | SkipField => Ok None
      | Failed e => Raise e
      | Got v =>
          if is_none v then Ok (Some VNone)
          else r ← field_to_representation (field_kind a) v; Ok (Some r)
      end
  end.

Fixpoint to_representation (fields : list (string * field I)) (instance : I)
  : result (list (string * value)) :=
  match fields with
  | [] => Ok []
  | (name, f) :: fields' =>
      r ← serialize_field name f instance;
      ret ← to_representation fields' instance;
      Ok (match r with Some v => (name, v) :: ret | None => ret end)
  end.

(** [Field.get_initial] and [Serializer.get_initial]: method fields are
    read-only and left out. *)
Definition initial (k : kind) : value :=
  match k with
  | CharField => VStr EmptyString
  | BooleanField => VBool false
  | _ => VNone
  end.

Fixpoint get_initial (fields : list (string * field I)) : list (string * value) :=
  match fields with
  | [] => []
  | (name, Field a) :: fields' => (name, initial (field_kind a)) :: get_initial fields'
  | (_, SerializerMethodField _) :: fields' => get_initial fields'
  end.

(** [Serializer(instance).data]. *)
Definition data (fields : list (string * field I)) (instance : option I)
  : result (list (string * value)) :=
  match instance with
  | Some i => to_representation fields i
  | None => Ok (get_initial fields)
  end.

(** [ModelSerializer.get_fields]: the names of [Meta.fields] in order, each
    with the declared field of that name or else the field built from the
    model's column. *)
Fixpoint declared_field (declared : list (string * field I)) (name : string)
  : option (field I) :=
  match declared with
  | [] => None
  | (n, f) :: declared' => if decide (n = name) then Some f else declared_field declared' name
  end.

Definition model_fields `{!Attrs I} (model : string -> attr_field)
    (declared : list (string * field I)) (meta_fields : list string)
  : list (string * field I) :=
  map (fun name => (name, default (Field (model name)) (declared_field declared name)))
      meta_fields.

End Serializer.

End DRF.
Export DRF.

(** ** Configuration and constants *)

(** [django.conf.settings], as far as the two modules read it.  A setting that
    is [None] in Python is [None] here. *)
Record settings := Settings {
  DATETIME_FORMAT : string;
  DATE_FORMAT : string;
  ELASTICSEARCH_LEARNERS_HOST : option string;
  ELASTICSEARCH_CONNECTION_CLASS : option string;
  ELASTICSEARCH_AWS_ACCESS_KEY_ID : option string;
  ELASTICSEARCH_AWS_SECRET_ACCESS_KEY : option string;
  ELASTICSEARCH_CONNECTION_DEFAULT_REGION : option string
}.

(** Modelled from the spec: [analytics_data_api.constants.enrollment_modes],
    the names of the recognised enrollment modes (audit, credit, honor,
    professional, verified). *)
Module enrollment_modes.
Definition AUDIT := "audit".
Definition CREDIT := "credit".
Definition HONOR := "honor".
Definition PROFESSIONAL := "professional".
Definition VERIFIED := "verified".
End enrollment_modes.

(** ** serializers.py *)

Module Serializers.

(** Below are the enrollment modes supported by this API. *)
Definition ENROLLMENT_MODES : list string :=
  [enrollment_modes.AUDIT; enrollment_modes.CREDIT; enrollment_modes.HONOR;
   enrollment_modes.PROFESSIONAL; enrollment_modes.VERIFIED].

(** *** CourseActivityByWeekSerializer *)

Module CourseActivityByWeekSerializer.

  (** Lines 33-37 on the string held by [obj.activity_type]. *)
Definition rename_activity_type (R : runtime) (activity_type : string) : string :=
    let activity_type := text_lower R activity_type in
    if decide (activity_type = "active") then "any" else activity_type.

  (** [obj.activity_type] raises when the attribute is missing, [.lower()]
      when the value is not a string. *)
Definition get_activity_type (R : runtime) (obj : object) : result value :=
    match attrs_of obj !! "activity_type" with
    | None => Raise (AttributeError "activity_type")
    | Some (VStr s) => Ok (VStr (rename_activity_type R s))
    | Some _ => Raise (AttributeError "lower")
    end.

Definition Meta_fields : list string :=
    ["interval_start"; "interval_end"; "activity_type"; "count"; "course_id"].

Definition declared (R : runtime) : list (string * field object) :=
    [("activity_type", SerializerMethodField (get_activity_type R))].

Definition fields (R : runtime) (model : string -> attr_field)
    : list (string * field object) :=
    model_fields model (declared R) Meta_fields.

End CourseActivityByWeekSerializer.

(** *** ModelSerializerWithCreatedField *)
Definition ModelSerializerWithCreatedField_declared {I} `{!Attrs I} (S : settings)
  : list (string * field I) :=
  [("created", Field (declare (DateTimeField (DATETIME_FORMAT S))))].

(** *** ProblemSerializer: rows are dicts built by the view. *)
Definition ProblemSerializer (S : settings) : list (string * field dict) :=
  [("module_id", Field (declare CharField));
   ("total_submissions", Field (declare_default IntegerField (VInt 0)));
   ("correct_submissions", Field (declare_default IntegerField (VInt 0)));
   ("part_ids", Field (declare CharField));
   ("created", Field (declare (DateTimeField (DATETIME_FORMAT S))))].

(** *** ProblemsAndTagsSerializer *)
Definition ProblemsAndTagsSerializer (S : settings) : list (string * field dict) :=
  [("module_id", Field (declare CharField));
   ("total_submissions", Field (declare_default IntegerField (VInt 0)));
   ("correct_submissions", Field (declare_default IntegerField (VInt 0)));
   ("tags", Field (declare CharField));
   ("created", Field (declare (DateTimeField (DATETIME_FORMAT S))))].

(** *** ProblemResponseAnswerDistributionSerializer and its variants:
    instances are model objects; [model] gives the field built for a column
    of the model named in [Meta]. *)
Module ProblemResponseAnswerDistributionSerializer.
Definition Meta_fields : list string :=
    ["course_id"; "module_id"; "part_id"; "correct"; "count"; "value_id";
     "answer_value"; "problem_display_name"; "question_text"; "variant";
     "created"].
Definition declared (S : settings) : list (string * field object) :=
    ModelSerializerWithCreatedField_declared S.
Definition fields (S : settings) (model : string -> attr_field) :=
    model_fields model (declared S) Meta_fields.
End ProblemResponseAnswerDistributionSerializer.

Module ConsolidatedAnswerDistributionSerializer.
Definition declared (S : settings) : list (string * field object) :=
    ("consolidated_variant", Field (declare BooleanField))
      :: ProblemResponseAnswerDistributionSerializer.declared S.
Definition Meta_fields : list string :=
    (ProblemResponseAnswerDistributionSerializer.Meta_fields ++ ["consolidated_variant"])%list.
Definition fields (S : settings) (model : string -> attr_field) :=
    model_fields model (declared S) Meta_fields.

  (** Pops and restores non-model field.  [attrs] is the caller's dict, which
      [pop] changes: the dict is returned next to the result.  [inherited] is
      what [super().restore_object] finds: the method of the 2.x releases of
      the framework, which may take more keys out of [attrs] and may raise,
      or nothing on a 3.x release, whose serializers have no such method, so
      that the lookup raises [AttributeError] once the flag is popped. *)
Definition restore_object
      (inherited : option (dict -> option object -> dict * result object))
      (attrs : dict) (instance : option object) : dict * result object :=
    let consolidated_variant := dict_get attrs "consolidated_variant" VNone in
    let attrs := delete "consolidated_variant" attrs in
    match inherited with
    | None => (attrs, Raise (AttributeError "restore_object"))
    | Some super_restore_object =>
        let '(attrs, distribution) := super_restore_object attrs instance in
        (attrs,
         distribution ← distribution;
         Ok (Object (<["consolidated_variant" := consolidated_variant]>
                       (attrs_of distribution))))
    end.
End ConsolidatedAnswerDistributionSerializer.

Module ProblemFirstLastResponseAnswerDistributionSerializer.
Definition Meta_fields : list string :=
    let fields :=
      (ProblemResponseAnswerDistributionSerializer.Meta_fields
        ++ ["first_response_count"; "last_response_count"])%list in
    filter (fun field => field <> "count") fields.
Definition declared (S : settings) : list (string * field object) :=
    ProblemResponseAnswerDistributionSerializer.declared S.
Definition fields (S : settings) (model : string -> attr_field) :=
    model_fields model (declared S) Meta_fields.
End ProblemFirstLastResponseAnswerDistributionSerializer.

Module ConsolidatedFirstLastAnswerDistributionSerializer.
Definition declared (S : settings) : list (string * field object) :=
    ("consolidated_variant", Field (declare BooleanField))
      :: ProblemFirstLastResponseAnswerDistributionSerializer.declared S.
Definition Meta_fields : list string :=
    (ProblemFirstLastResponseAnswerDistributionSerializer.Meta_fields
      ++ ["consolidated_variant"])%list.
Definition fields (S : settings) (model : string -> attr_field) :=
    model_fields model (declared S) Meta_fields.

  (** Pops and restores non-model field: as in
      [ConsolidatedAnswerDistributionSerializer]. *)
Definition restore_object
      (inherited : option (dict -> option object -> dict * result object))
      (attrs : dict) (instance : option object) : dict * result object :=
    let consolidated_variant := dict_get attrs "consolidated_variant" VNone in
    let attrs := delete "consolidated_variant" attrs in
    match inherited with
    | None => (attrs, Raise (AttributeError "restore_object"))
    | Some super_restore_object =>
        let '(attrs, distribution) := super_restore_object attrs instance in
        (attrs,
         distribution ← distribution;
         Ok (Object (<["consolidated_variant" := consolidated_variant]>
                       (attrs_of distribution))))
    end.
End ConsolidatedFirstLastAnswerDistributionSerializer.

(** *** GradeDistributionSerializer, SequentialOpenDistributionSerializer *)
Module GradeDistributionSerializer.
Definition Meta_fields : list string :=
  ["module_id"; "course_id"; "grade"; "max_grade"; "count"; "created"].
Definition fields (S : settings) (model : string -> attr_field)
  : list (string * field object) :=
  model_fields model (ModelSerializerWithCreatedField_declared S) Meta_fields.
End GradeDistributionSerializer.

Module SequentialOpenDistributionSerializer.
Definition Meta_fields : list string := ["module_id"; "course_id"; "count"; "created"].
Definition fields (S : settings) (model : string -> attr_field)
  : list (string * field object) :=
  model_fields model (ModelSerializerWithCreatedField_declared S) Meta_fields.
End SequentialOpenDistributionSerializer.

(** *** DefaultIfNoneMixin *)
Definition default_if_none (v default : value) : value :=
  if negb (is_none v) then v else default.

(** *** BaseCourseEnrollmentModelSerializer *)
Definition BaseCourseEnrollmentModelSerializer_declared {I} `{!Attrs I} (S : settings)
  : list (string * field I) :=
  ("date", Field (declare (DateField (DATE_FORMAT S))))
    :: ModelSerializerWithCreatedField_declared S.

(** *** CourseEnrollmentModeDailySerializer: rows are dicts, one key per
    mode that has enrollments. *)
Module CourseEnrollmentModeDailySerializer.
Definition get_audit (obj : dict) : result value := Ok (dict_get obj "audit" (VInt 0)).
Definition get_honor (obj : dict) : result value := Ok (dict_get obj "honor" (VInt 0)).
Definition get_credit (obj : dict) : result value := Ok (dict_get obj "credit" (VInt 0)).
Definition get_professional (obj : dict) : result value :=
    Ok (dict_get obj "professional" (VInt 0)).
Definition get_verified (obj : dict) : result value :=
    Ok (dict_get obj "verified" (VInt 0)).

Definition declared (S : settings) : list (string * field dict) :=
    ([("audit", SerializerMethodField get_audit);
     ("credit", SerializerMethodField get_credit);
     ("honor", SerializerMethodField get_honor);
     ("professional", SerializerMethodField get_professional);
     ("verified", SerializerMethodField get_verified)]
    ++ BaseCourseEnrollmentModelSerializer_declared S)%list.

Definition Meta_fields : list string :=
    (["course_id"; "date"; "count"; "cumulative_count"; "created"] ++ ENROLLMENT_MODES)%list.

Definition fields (S : settings) (model : string -> attr_field) :=
    model_fields model (declared S) Meta_fields.
End CourseEnrollmentModeDailySerializer.

(** *** The other enrollment serializers *)
Module CourseEnrollmentDailySerializer.
Definition Meta_fields : list string := ["course_id"; "date"; "count"; "created"].
Definition fields (S : settings) (model : string -> attr_field)
  : list (string * field object) :=
  model_fields model (BaseCourseEnrollmentModelSerializer_declared S) Meta_fields.
End CourseEnrollmentDailySerializer.

Module CourseEnrollmentByGenderSerializer.
Definition declared (S : settings) : list (string * field object) :=
  [("female", Field (declare_default IntegerField (VInt 0)));
   ("male", Field (declare_default IntegerField (VInt 0)));
   ("other", Field (declare_default IntegerField (VInt 0)));
   ("unknown", Field (declare_default IntegerField (VInt 0)))]
  ++ BaseCourseEnrollmentModelSerializer_declared S.
Definition Meta_fields : list string :=
  ["course_id"; "date"; "female"; "male"; "other"; "unknown"; "created"].
Definition fields (S : settings) (model : string -> attr_field)
  : list (string * field object) :=
  model_fields model (declared S) Meta_fields.
End CourseEnrollmentByGenderSerializer.

Module CourseEnrollmentByEducationSerializer.
Definition Meta_fields : list string :=
  ["course_id"; "date"; "education_level"; "count"; "created"].
Definition fields (S : settings) (model : string -> attr_field)
  : list (string * field object) :=
  model_fields model (BaseCourseEnrollmentModelSerializer_declared S) Meta_fields.
End CourseEnrollmentByEducationSerializer.

Module CourseEnrollmentByBirthYearSerializer.
Definition Meta_fields : list string :=
  ["course_id"; "date"; "birth_year"; "count"; "created"].
Definition fields (S : settings) (model : string -> attr_field)
  : list (string * field object) :=
  model_fields model (BaseCourseEnrollmentModelSerializer_declared S) Meta_fields.
End CourseEnrollmentByBirthYearSerializer.

(** *** CourseActivityWeeklySerializer: the three counters are optional. *)
Module CourseActivityWeeklySerializer.
Definition declared (S : settings) : list (string * field object) :=
  [("interval_start", Field (declare (DateTimeField (DATETIME_FORMAT S))));
   ("interval_end", Field (declare (DateTimeField (DATETIME_FORMAT S))));
   ("any", Field (declare_optional IntegerField));
   ("attempted_problem", Field (declare_optional IntegerField));
   ("played_video", Field (declare_optional IntegerField));
   ("created", Field (declare (DateTimeField (DATETIME_FORMAT S))))].
Definition Meta_fields : list string :=
  ["interval_start"; "interval_end"; "course_id"; "any"; "attempted_problem";
   "played_video"; "created"].
Definition fields (S : settings) (model : string -> attr_field)
  : list (string * field object) :=
  model_fields model (declared S) Meta_fields.
End CourseActivityWeeklySerializer.

(** *** VideoSerializer, VideoTimelineSerializer *)
Module VideoSerializer.
Definition Meta_fields : list string :=
  ["pipeline_video_id"; "encoded_module_id"; "duration"; "segment_length";
   "users_at_start"; "users_at_end"; "created"].
Definition fields (S : settings) (model : string -> attr_field)
  : list (string * field object) :=
  model_fields model (ModelSerializerWithCreatedField_declared S) Meta_fields.
End VideoSerializer.

Module VideoTimelineSerializer.
Definition Meta_fields : list string := ["segment"; "num_users"; "num_views"; "created"].
Definition fields (S : settings) (model : string -> attr_field)
  : list (string * field object) :=
  model_fields model (ModelSerializerWithCreatedField_declared S) Meta_fields.
End VideoTimelineSerializer.

(** *** LastUpdatedSerializer *)
Definition LastUpdatedSerializer (S : settings) : list (string * field object) :=
  [("last_updated", Field (declare_source (DateField (DATE_FORMAT S)) "date"))].

(** *** LearnerSerializer: the two value hooks, [value or []] and
    [value or None]. *)
Definition transform_segments (v : value) : value :=
  if truthy v then v else VList [].

Definition transform_cohort (v : value) : value :=
  if truthy v then v else VNone.

(** *** LearnerSerializer *)
Module LearnerSerializer.
  (** Add the engagement totals. *)
Definition get_engagements (obj : object) : dict :=
    let engagements : dict := ∅ in
    (* fill in these fields will 0 if values not returned/found *)
    let default_if_none_fields :=
      ["discussion_contributions"; "problems_attempted";
       "problems_completed"; "videos_viewed"] in
    let engagements :=
      foldl (fun (engagements : dict) field =>
               <[field := default_if_none (getattr_default obj field VNone) (VInt 0)]>
                 engagements)
            engagements default_if_none_fields in
    (* preserve null values for problem attempts per completed *)
    <["problem_attempts_per_completed" :=
        getattr_default obj "problem_attempts_per_completed" VNone]> engagements.
End LearnerSerializer.

(** *** EngagementDaySerializer: rows are dicts. *)
Module EngagementDaySerializer.
Definition get_problems_attempted (obj : dict) : result value :=
  Ok (dict_get obj "problems_attempted" (VInt 0)).
Definition get_problems_completed (obj : dict) : result value :=
  Ok (dict_get obj "problems_completed" (VInt 0)).
Definition get_discussion_contributions (obj : dict) : result value :=
  Ok (dict_get obj "discussion_contributions" (VInt 0)).
Definition get_videos_viewed (obj : dict) : result value :=
  Ok (dict_get obj "videos_viewed" (VInt 0)).

Definition fields (S : settings) : list (string * field dict) :=
  [("date", Field (declare (DateField (DATE_FORMAT S))));
   ("problems_attempted", SerializerMethodField get_problems_attempted);
   ("problems_completed", SerializerMethodField get_problems_completed);
   ("discussion_contributions", SerializerMethodField get_discussion_contributions);
   ("videos_viewed", SerializerMethodField get_videos_viewed)].
End EngagementDaySerializer.

(** *** Engagement ranges *)

(** A row of the metric-ranges table: the two names it is filtered on, and
    the bounds and dates as the values the database driver returned. *)
Record range_row := RangeRow {
  metric : string;
  range_type : string;
  low_value : value;
  high_value : value;
  start_date : value;
  end_date : value
}.

#[export] Instance range_row_attrs : Attrs range_row := fun r name =>
  if decide (name = "metric") then Ok (VStr (metric r))
  else if decide (name = "range_type") then Ok (VStr (range_type r))
  else if decide (name = "low_value") then Ok (low_value r)
  else if decide (name = "high_value") then Ok (high_value r)
  else if decide (name = "start_date") then Ok (start_date r)
  else if decide (name = "end_date") then Ok (end_date r)
  else Raise (AttributeError name).

(** The queryset operations used: [filter(metric=..., range_type=...)] keeps
    the rows equal on both columns, in the queryset's order; [qs[0] if
    len(qs) else None]. *)
Definition qs_filter (m t : string) (query_set : list range_row) : list range_row :=
  filter (fun r => metric r = m /\ range_type r = t) query_set.

Definition first_or_none (query_set : list range_row) : option range_row :=
  if bool_decide (length query_set <> 0%nat) then query_set !! 0%nat else None.

Definition DateRangeSerializer (S : settings) : list (string * field range_row) :=
  [("start", Field (declare_source (DateTimeField (DATE_FORMAT S)) "start_date"));
   ("end", Field (declare_source (DateTimeField (DATE_FORMAT S)) "end_date"))].

Module EnagementRangeMetricSerializer.
Definition getitem (obj : gmap string (option range_row)) (key : string)
    : result (option range_row) :=
    match obj !! key with
    | Some r => Ok r
    | None => Raise (KeyError key)
    end.

Definition _transform_range (metric_range : option range_row) : value :=
    match metric_range with
    | Some r => VList [low_value r; high_value r]
    | None => VNone
    end.

Definition get_average_range obj : result value :=
    r ← getitem obj "normal_range"; Ok (_transform_range r).
Definition get_below_average_range obj : result value :=
    r ← getitem obj "low_range"; Ok (_transform_range r).
Definition get_above_average_range obj : result value :=
    r ← getitem obj "high_range"; Ok (_transform_range r).

Definition fields : list (string * field (gmap string (option range_row))) :=
    [("below_average", SerializerMethodField get_below_average_range);
     ("average", SerializerMethodField get_average_range);
     ("above_average", SerializerMethodField get_above_average_range)].
End EnagementRangeMetricSerializer.

Module CourseLearnerMetadataSerializer.
Section Ranges.
    (** [EVENTS] is [engagement_events.EVENTS], the known metric names; [obj]
        is the dict handed over by the view, seen through the keys that hold
        a queryset. *)
Context (R : runtime) (S : settings) (EVENTS : list string).

Definition metric_entry (query_set : list range_row) (metric : string)
      : result (list (string * value)) :=
      let low_range_queryset := qs_filter metric "low" query_set in
      let normal_range_queryset := qs_filter metric "normal" query_set in
      let high_range_queryset := qs_filter metric "high" query_set in
      data R EnagementRangeMetricSerializer.fields
        (Some (<["low_range" := first_or_none low_range_queryset]>
               (<["normal_range" := first_or_none normal_range_queryset]>
                (<["high_range" := first_or_none high_range_queryset]> ∅)))).

Fixpoint for_metrics (events : list string) (query_set : list range_row)
        (engagement_ranges : gmap string (list (string * value)))
      : result (gmap string (list (string * value))) :=
      match events with
      | [] => Ok engagement_ranges
      | metric :: events' =>
          entry ← metric_entry query_set metric;
          for_metrics events' query_set (<[metric := entry]> engagement_ranges)
      end.

Definition get_engagement_ranges (obj : gmap string (list range_row))
      : result (gmap string (list (string * value))) :=
      match obj !! "engagement_ranges" with
      | None => Raise (KeyError "engagement_ranges")
      | Some query_set =>
          date_range ← data R (DateRangeSerializer S) (first_or_none query_set);
          for_metrics EVENTS query_set {["date_range" := date_range]}
      end.
End Ranges.
End CourseLearnerMetadataSerializer.

End Serializers.

(** ** apps.py *)

Module Apps.

(** A value of [connection_params]: [None], a string setting, the list of
    hosts, or the object a dotted name resolves to. *)
Inductive param (definition : Type) :=
| PNone
| PStr (s : string)
| PList (l : list string)
| PObject (o : definition).
Arguments PNone {definition}.
Arguments PStr {definition} s.
Arguments PList {definition} l.
Arguments PObject {definition} o.

Definition param_is_none {definition} (p : param definition) : bool :=
  match p with PNone => true | _ => false end.

(** A setting that is a string or [None], as a dict value and as a condition. *)
Definition of_setting {definition} (o : option string) : param definition :=
  match o with
  | Some s => PStr s
  | None => PNone
  end.

Definition setting_truthy (o : option string) : bool :=
  match o with
  | Some s => negb (String.eqb s EmptyString)
  | None => false
  end.

(** [s.rsplit(sep, 1)] when it has two parts: the split at the last [sep]. *)
Fixpoint rsplit1 (sep : ascii) (s : string) : option (string * string) :=
  match s with
  | EmptyString => None
  | String c s' =>
      match rsplit1 sep s' with
      | Some (a, b) => Some (String c a, b)
      | None => if Ascii.eqb c sep then Some (EmptyString, s') else None
      end
  end.

(** What the process does to the search client: calls of
    [connections.create_connection] with the keyword arguments [params]. *)
Inductive event (definition : Type) :=
| CreateConnection (params : gmap string (param definition)).
Arguments CreateConnection {definition} params.

Section Ready.
(** [import_module] and [getattr] on the imported module. *)
Context {module definition : Type}.
Context (import_module : string -> result module).
Context (getattr : module -> string -> result (param definition)).

(** Returns the class given the full definition. *)
Definition load_fully_qualified_definition (definition_name : string)
  : result (param definition) :=
  match rsplit1 "."%char definition_name with
  | None => Raise ValueError
  | Some (module_name, class_name) =>
      m ← import_module module_name;
      getattr m class_name
  end.

Definition ready (S : settings) : result (list (event definition)) :=
  if setting_truthy (ELASTICSEARCH_LEARNERS_HOST S) then
    let connection_params : gmap string (param definition) :=
      {["hosts" := PList [default EmptyString (ELASTICSEARCH_LEARNERS_HOST S)]]} in
    connection_params ←
      (if setting_truthy (ELASTICSEARCH_CONNECTION_CLASS S) then
         c ← load_fully_qualified_definition
               (default EmptyString (ELASTICSEARCH_CONNECTION_CLASS S));
         Ok (<["connection_class" := c]> connection_params)
       else Ok connection_params);
    (* aws settings *)
    let connection_params :=
      <["aws_access_key_id" := of_setting (ELASTICSEARCH_AWS_ACCESS_KEY_ID S)]>
        connection_params in
    let connection_params :=
      <["aws_secret_access_key" := of_setting (ELASTICSEARCH_AWS_SECRET_ACCESS_KEY S)]>
        connection_params in
    let connection_params :=
      <["region" := of_setting (ELASTICSEARCH_CONNECTION_DEFAULT_REGION S)]>
        connection_params in
    (* Remove 'None' values so that we don't overwrite defaults *)
    let connection_params :=
      filter (fun kv => param_is_none kv.2 = false) connection_params in
    Ok [CreateConnection connection_params]
  else Ok [].

End Ready.

End Apps.

(** ** Vocabulary of the statements *)

Import Serializers.

(** The call returns rather than raises. *)
Definition succeeds {A} (r : result A) : bool :=
  match r with
  | Ok _ => true
  | Raise _ => false
  end.

(** Every field of [fields] gets through the loop body on [instance]. *)
Definition all_render {I} (R : runtime) (fields : list (string * field I)) (instance : I)
  : bool :=
  forallb (fun nf => succeeds (serialize_field R nf.1 nf.2 instance)) fields.

(** What a row may hold under a numeric key of the problem serializer: an
    integer, [None], or nothing at all where the release falls back on the
    declared default. *)
Definition numeric_input (R : runtime) (o : option value) : bool :=
  match o with
  | Some (VInt _) => true
  | Some VNone => true
  | Some _ => false
  | None => default_on_output R
  end.

(** The same without regard to the release: an integer, [None], or no such
    key. *)
Definition integer_null_or_absent (o : option value) : bool :=
  match o with
  | Some (VInt _) => true
  | Some VNone => true
  | Some _ => false
  | None => true
  end.

(** [r] is the first row of [query_set], in its order, for [m] and [t]. *)
Definition first_match (m t : string) (query_set : list range_row) (r : range_row)
  : Prop :=
  exists before after,
    query_set = (before ++ r :: after)%list
    /\ metric r = m /\ range_type r = t
    /\ Forall (fun r' => ~ (metric r' = m /\ range_type r' = t)) before.

(** No row of [query_set] is for [m] and [t]. *)
Definition no_match (m t : string) (query_set : list range_row) : Prop :=
  Forall (fun r' => ~ (metric r' = m /\ range_type r' = t)) query_set.

(** The three range types and the output key of each. *)
Definition buckets : list (string * string) :=
  [("low", "below_average"); ("normal", "average"); ("high", "above_average")].

(** The character [c] occurs in [s]. *)
Fixpoint occurs (c : ascii) (s : string) : bool :=
  match s with
  | EmptyString => false
  | String c' s' => (Ascii.eqb c' c || occurs c s')%bool
  end.

(** An upper-case ASCII letter. *)
Definition is_upper (c : ascii) : bool :=
  let n := nat_of_ascii c in ((65 <=? n)%nat && (n <=? 90)%nat)%bool.

(** The model serializers of the pipeline's tables, by class name. *)
Definition table_serializers (R : runtime) (S : settings)
    (model : string -> attr_field)
  : list (string * list (string * field object)) :=
  [("CourseActivityByWeekSerializer", CourseActivityByWeekSerializer.fields R model);
   ("ProblemResponseAnswerDistributionSerializer",
    ProblemResponseAnswerDistributionSerializer.fields S model);
   ("ConsolidatedAnswerDistributionSerializer",
    ConsolidatedAnswerDistributionSerializer.fields S model);
   ("ProblemFirstLastResponseAnswerDistributionSerializer",
    ProblemFirstLastResponseAnswerDistributionSerializer.fields S model);
   ("ConsolidatedFirstLastAnswerDistributionSerializer",
    ConsolidatedFirstLastAnswerDistributionSerializer.fields S model);
   ("GradeDistributionSerializer", GradeDistributionSerializer.fields S model);
   ("SequentialOpenDistributionSerializer",
    SequentialOpenDistributionSerializer.fields S model);
   ("CourseEnrollmentDailySerializer", CourseEnrollmentDailySerializer.fields S model);
   ("CourseEnrollmentByGenderSerializer", CourseEnrollmentByGenderSerializer.fields S model);
   ("CourseEnrollmentByEducationSerializer",
    CourseEnrollmentByEducationSerializer.fields S model);
   ("CourseEnrollmentByBirthYearSerializer",
    CourseEnrollmentByBirthYearSerializer.fields S model);
   ("CourseActivityWeeklySerializer", CourseActivityWeeklySerializer.fields S model);
   ("VideoSerializer", VideoSerializer.fields S model);
   ("VideoTimelineSerializer", VideoTimelineSerializer.fields S model)].

(** Concrete inputs the statements are instantiated at. *)
Module Samples.

(** A runtime whose date text is the format itself, which takes no value of
    another type than the field's, and which leaves text that is not ASCII as
    it is when lower-casing. *)
Definition runtime_ (fallback : bool) : runtime :=
  {| strftime := fun format _ => format;
     strftime_date := fun format _ => format;
     coerce := fun _ _ => Raise TypeError;
     default_on_output := fallback;
     unicode_lower := fun text => text |}.

Definition settings_ : settings :=
  {| DATETIME_FORMAT := "%Y-%m-%dT%H%M%S";
     DATE_FORMAT := "%Y-%m-%d";
     ELASTICSEARCH_LEARNERS_HOST := Some "localhost:9200";
     ELASTICSEARCH_CONNECTION_CLASS := None;
     ELASTICSEARCH_AWS_ACCESS_KEY_ID := None;
     ELASTICSEARCH_AWS_SECRET_ACCESS_KEY := Some "secret";
     ELASTICSEARCH_CONNECTION_DEFAULT_REGION := None |}.

Definition ts : datetime := DateTime (Date 2016 1 2) 3 4 5.

(** The row of the scenario: [total_submissions] is [None]. *)
Definition problem_row : dict :=
  <["module_id" := VStr "m1"]>
  (<["total_submissions" := VNone]>
  (<["correct_submissions" := VInt 3]>
  (<["part_ids" := VStr "p1"]>
  (<["created" := VDateTime ts]> ∅)))).

(** Columns of the models: counters are integers, [correct] is a boolean, the
    interval bounds are datetimes, the rest is text. *)
Definition model_ (name : string) : attr_field :=
  declare
    (if bool_decide (name ∈ ["count"; "cumulative_count"; "first_response_count";
                             "last_response_count"; "variant"])
     then IntegerField
     else if bool_decide (name = "correct") then BooleanField
     else if bool_decide (name ∈ ["interval_start"; "interval_end"])
     then DateTimeField "iso-8601"
     else CharField).

Definition enrollment_row : dict :=
  <["course_id" := VStr "edX/DemoX/Demo_Course"]>
  (<["date" := VDate (Date 2016 1 2)]>
  (<["count" := VInt 7]>
  (<["cumulative_count" := VInt 9]>
  (<["created" := VDateTime ts]>
  (<["audit" := VInt 4]>
  (<["verified" := VInt 3]> ∅)))))).

Definition activity_row (activity_type : string) : object :=
  Object
    (<["interval_start" := VDateTime ts]>
    (<["interval_end" := VDateTime ts]>
    (<["activity_type" := VStr activity_type]>
    (<["count" := VInt 5]>
    (<["course_id" := VStr "edX/DemoX/Demo_Course"]> ∅))))).

Definition range_ (m t : string) (lo hi : float) : range_row :=
  {| metric := m; range_type := t; low_value := VFloat lo; high_value := VFloat hi;
     start_date := VDateTime ts; end_date := VDateTime ts |}.

Definition ranges : list range_row :=
  [range_ "videos_viewed" "low" 0 1.5; range_ "videos_viewed" "low" 3 4;
   range_ "videos_viewed" "high" 6 7].

(** A distribution object with every column of both models and the flag set
    by the caller. *)
Definition distribution_row : object :=
  Object
    (<["course_id" := VStr "edX/DemoX/Demo_Course"]>
    (<["module_id" := VStr "i4x://edX/DemoX/problem/1"]>
    (<["part_id" := VStr "i4x-edX-DemoX-problem-1_2_1"]>
    (<["correct" := VBool true]>
    (<["count" := VInt 12]>
    (<["first_response_count" := VInt 7]>
    (<["last_response_count" := VInt 5]>
    (<["value_id" := VStr "choice_1"]>
    (<["answer_value" := VStr "blue"]>
    (<["problem_display_name" := VStr "Colours"]>
    (<["question_text" := VStr "Which colour?"]>
    (<["variant" := VNone]>
    (<["created" := VDateTime ts]>
    (<["consolidated_variant" := VBool true]> ∅)))))))))))))).

Definition learner : object :=
  Object (<["videos_viewed" := VInt 3]> (<["problems_attempted" := VNone]> ∅)).

Definition EVENTS : list string := ["videos_viewed"; "problems_attempted"].

Definition metadata : gmap string (list range_row) :=
  {["engagement_ranges" := ranges]}.

End Samples.

(** ** urls/__init__.py *)

Module Urls.

(** The constructs of [re] the pattern is written in: a character class, a
    sequence, one-or-more; [Empty], [Eps], [Alt] and [Star] are what matching
    by derivatives needs besides.  A named group matches what its body
    matches. *)
Inductive regex :=
| Empty
| Eps
| Chars (p : ascii -> bool)
| Cat (r1 r2 : regex)
| Alt (r1 r2 : regex)
| Star (r : regex).

Definition Plus (r : regex) : regex := Cat r (Star r).

Fixpoint nullable (r : regex) : bool :=
  match r with
  | Empty => false
  | Eps => true
  | Chars _ => false
  | Cat r1 r2 => nullable r1 && nullable r2
  | Alt r1 r2 => nullable r1 || nullable r2
  | Star _ => true
  end.

Fixpoint deriv (c : ascii) (r : regex) : regex :=
  match r with
  | Empty => Empty
  | Eps => Empty
  | Chars p => if p c then Eps else Empty
  | Cat r1 r2 =>
      if nullable r1 then Alt (Cat (deriv c r1) r2) (deriv c r2)
      else Cat (deriv c r1) r2
  | Alt r1 r2 => Alt (deriv c r1) (deriv c r2)
  | Star r => Cat (deriv c r) (Star r)
  end.

(** [re.fullmatch(r, s) is not None]. *)
Fixpoint fullmatch (r : regex) (s : string) : bool :=
  match s with
  | EmptyString => nullable r
  | String c s' => fullmatch (deriv c r) s'
  end.

(** The strings of a pattern. *)
Inductive lang : regex -> string -> Prop :=
| lang_eps : lang Eps EmptyString
| lang_chars p c : p c = true -> lang (Chars p) (String c EmptyString)
| lang_cat r1 r2 s1 s2 : lang r1 s1 -> lang r2 s2 -> lang (Cat r1 r2) (s1 +:+ s2)
| lang_alt_l r1 r2 s : lang r1 s -> lang (Alt r1 r2) s
| lang_alt_r r1 r2 s : lang r2 s -> lang (Alt r1 r2) s
| lang_star_nil r : lang (Star r) EmptyString
| lang_star_cons r s1 s2 : lang r s1 -> lang (Star r) s2 -> lang (Star r) (s1 +:+ s2).

(** [[/+]], [[^/+]] and [[^/]]. *)
Definition slash_or_plus (c : ascii) : bool :=
  (Ascii.eqb c "/" || Ascii.eqb c "+")%bool.
Definition not_slash_or_plus (c : ascii) : bool := negb (slash_or_plus c).
Definition not_slash (c : ascii) : bool := negb (Ascii.eqb c "/").

(** [(?P<course_id>[^/+]+[/+][^/+]+[/+][^/]+)] *)
Definition COURSE_ID_PATTERN : regex :=
  Cat (Plus (Chars not_slash_or_plus))
    (Cat (Chars slash_or_plus)
       (Cat (Plus (Chars not_slash_or_plus))
          (Cat (Chars slash_or_plus)
             (Plus (Chars not_slash))))).

End Urls.

(** Every character of [s] satisfies [p]. *)
Fixpoint all_chars (p : ascii -> bool) (s : string) : bool :=
  match s with
  | EmptyString => true
  | String c s' => (p c && all_chars p s')%bool
  end.

(** The number of characters of [s] that satisfy [p]. *)
Fixpoint count_chars (p : ascii -> bool) (s : string) : nat :=
  match s with
  | EmptyString => 0
  | String c s' => (if p c then 1 else 0) + count_chars p s'
  end.

(** No character of [s] is an upper-case ASCII letter. *)
Fixpoint no_upper (s : string) : bool :=
  match s with
  | EmptyString => true
  | String c s' => (negb (is_upper c) && no_upper s')%bool
  end.

(** The keyword arguments [ready] can pass. *)
Definition connection_keys : list string :=
  ["hosts"; "connection_class"; "aws_access_key_id"; "aws_secret_access_key"; "region"].
(** Further concrete inputs. *)
Module MoreSamples.

Definition timeline_row : object :=
  Object
    (<["segment" := VStr "3"]>
    (<["num_users" := VStr "10"]>
    (<["num_views" := VStr "12"]>
    (<["created" := VDateTime Samples.ts]> ∅)))).

(** The distribution object of [Samples], with the record id the table gives
    it. *)
Definition distribution_row_with_id : object :=
  Object (<["id" := VInt 17]> (attrs_of Samples.distribution_row)).

(** A week of activity for which no video was played. *)
Definition weekly_row : object :=
  Object
    (<["interval_start" := VDateTime Samples.ts]>
    (<["interval_end" := VDateTime Samples.ts]>
    (<["course_id" := VStr "edX/DemoX/Demo_Course"]>
    (<["any" := VInt 40]>
    (<["attempted_problem" := VInt 12]>
    (<["created" := VDateTime Samples.ts]> ∅)))))).

Definition gender_row : object :=
  Object
    (<["course_id" := VStr "edX/DemoX/Demo_Course"]>
    (<["date" := VDate (Date 2016 1 2)]>
    (<["female" := VInt 11]>
    (<["male" := VNone]>
    (<["other" := VInt 0]>
    (<["unknown" := VInt 2]>
    (<["created" := VDateTime Samples.ts]> ∅))))))).

Definition engagement_day : dict :=
  <["date" := VDate (Date 2016 1 2)]>
  (<["problems_attempted" := VInt 3]>
  (<["videos_viewed" := VNone]> ∅)).

Definition tagged_row : dict :=
  <["tags" := VStr "difficulty"]> (delete "part_ids" Samples.problem_row).

(** The problem row of [Samples] as a view that leaves out a counter it has
    no number for would build it. *)
Definition problem_row_without_total : dict :=
  delete "total_submissions" Samples.problem_row.

(** A week of activity whose type the pipeline left null. *)
Definition activity_row_without_type : object :=
  Object (<["activity_type" := VNone]> (attrs_of (Samples.activity_row "any"))).

(** The attributes a caller hands to [restore_object]. *)
Definition restore_attrs : dict :=
  <["consolidated_variant" := VBool true]> (<["count" := VInt 3]> ∅).

(** An inherited [restore_object] in the way of the 2.x releases: the object
    gets the attributes, and a flag of its own. *)
Definition super_restore_object (attrs : dict) (instance : option object)
  : dict * result object :=
  (attrs, Ok (Object (<["consolidated_variant" := VBool false]> attrs))).

(** Settings with a connection class, and an importer that knows one module. *)
Definition settings_with_class (name : string) : settings :=
  {| DATETIME_FORMAT := DATETIME_FORMAT Samples.settings_;
     DATE_FORMAT := DATE_FORMAT Samples.settings_;
     ELASTICSEARCH_LEARNERS_HOST := Some "localhost:9200";
     ELASTICSEARCH_CONNECTION_CLASS := Some name;
     ELASTICSEARCH_AWS_ACCESS_KEY_ID := None;
     ELASTICSEARCH_AWS_SECRET_ACCESS_KEY := None;
     ELASTICSEARCH_CONNECTION_DEFAULT_REGION := Some "us-east-1" |}.

Definition import_module (name : string) : result string :=
  if decide (name = "elasticsearch.connection") then Ok name
  else Raise (ImportError name).

Definition getattr (module name : string) : result (Apps.param string) :=
  if decide (name = "RequestsHttpConnection") then Ok (Apps.PObject name)
  else Raise (AttributeError name).

End MoreSamples.

(** ** The serializer loop *)

Section Loop.
Context (R : runtime) {I : Type}.
Implicit Types (fields : list (string * field I)) (instance : I).

Lemma to_representation_cons name f fields instance :
  to_representation R ((name, f) :: fields) instance =
  r ← serialize_field R name f instance;
  ret ← to_representation R fields instance;
  Ok (match r with Some v => (name, v) :: ret | None => ret end).
Proof. reflexivity. Qed.

(** The loop returns as soon as every field gets through its body. *)
Lemma to_representation_succeeds fields instance :
  all_render R fields instance = true ->
  exists out, to_representation R fields instance = Ok out.
Proof.
  induction fields as [|[name f] fields IH]; intros H.
  - by exists [].
  - apply andb_prop in H as [Hf Hrest]. cbn [fst snd] in Hf.
    destruct (IH Hrest) as [ret Hret].
    rewrite to_representation_cons, Hret.
    destruct (serialize_field R name f instance) as [r|e]; [|done].
    by eexists.
Qed.

(** The keys of the output are names of fields. *)
Lemma to_representation_keys fields instance out key :
  to_representation R fields instance = Ok out ->
  key ∉ fields.*1 -> odict_get out key = None.
Proof.
  revert out. induction fields as [|[name f] fields IH]; intros out H Hkey.
  - by injection H as <-.
  - rewrite to_representation_cons in H.
    destruct (serialize_field R name f instance) as [r|e]; [|done].
    destruct (to_representation R fields instance) as [ret|e]; [|done].
    injection H as <-.
    apply not_elem_of_cons in Hkey as [Hne Hkey]. cbn [fst] in Hne.
    specialize (IH ret eq_refl Hkey).
    destruct r as [v|]; [|done].
    cbn [odict_get]. by rewrite decide_False.
Qed.

(** A field that renders to [v] is found in the output under its name. *)
Lemma to_representation_get fields instance out name f v :
  to_representation R fields instance = Ok out ->
  NoDup fields.*1 ->
  (name, f) ∈ fields ->
  serialize_field R name f instance = Ok (Some v) ->
  odict_get out name = Some v.
Proof.
  revert out. induction fields as [|[name' f'] fields IH]; intros out H Hnd Hin Hv.
  - by apply elem_of_nil in Hin.
  - rewrite to_representation_cons in H.
    apply NoDup_cons in Hnd as [Hfresh Hnd]. cbn [fst] in Hfresh.
    destruct (serialize_field R name' f' instance) as [r|e] eqn:Hr; [|done].
    destruct (to_representation R fields instance) as [ret|e] eqn:Hret; [|done].
    injection H as <-.
    apply elem_of_cons in Hin as [Heq|Hin].
    + injection Heq as -> ->. rewrite Hv in Hr. injection Hr as <-.
      cbn [odict_get]. by rewrite decide_True.
    + assert (name' <> name) as Hne.
      { intros ->. apply Hfresh. apply list_elem_of_fmap. by exists (name, f). }
      specialize (IH ret eq_refl Hnd Hin Hv).
      destruct r as [v'|]; [|done].
      cbn [odict_get]. by rewrite decide_False.
Qed.

(** A field whose body raises makes the whole loop raise. *)
Lemma to_representation_raises fields instance name f e :
  (name, f) ∈ fields ->
  serialize_field R name f instance = Raise e ->
  exists e', to_representation R fields instance = Raise e'.
Proof.
  induction fields as [|[name' f'] fields IH]; intros Hin He.
  - by apply elem_of_nil in Hin.
  - rewrite to_representation_cons.
    apply elem_of_cons in Hin as [Heq|Hin].
    + injection Heq as <- <-. rewrite He. by eexists.
    + destruct (serialize_field R name' f' instance) as [r|e0]; [|by eexists].
      destruct (IH Hin He) as [e' ->]. by eexists.
Qed.

End Loop.

(** ** Activity type *)

Lemma rename_activity_type_spec (R : runtime) (s : string) :
  CourseActivityByWeekSerializer.rename_activity_type R s =
  if decide (text_lower R s = "active") then "any" else text_lower R s.
Proof. reflexivity. Qed.

Lemma CourseActivityByWeekSerializer_fields (R : runtime)
    (model : string -> attr_field) :
  CourseActivityByWeekSerializer.fields R model =
  [("interval_start", Field (model "interval_start"));
   ("interval_end", Field (model "interval_end"));
   ("activity_type",
    SerializerMethodField (CourseActivityByWeekSerializer.get_activity_type R));
   ("count", Field (model "count"));
   ("course_id", Field (model "course_id"))].
Proof. reflexivity. Qed.

(** On ASCII text [.lower()] does not depend on the interpreter's tables. *)
Lemma text_lower_ascii (R : runtime) (s : string) :
  is_ascii s = true -> text_lower R s = ascii_lower s.
Proof. unfold text_lower. by intros ->. Qed.

(** C3: the serialized activity_type of a course-activity row is the row's
    activity_type lower-cased, with ["active"] then replaced by ["any"]: the
    inputs "Active", "ACTIVE" and "active" give ["any"], as does every value
    whose lower-cased form is ["active"], and every other value gives its
    lower-cased form.  The row is serialized whenever its four model columns
    render. *)
Theorem activity_type_lowered_then_renamed
    (R : runtime) (model : string -> attr_field) (obj : object) (s : string) :
  attrs_of obj !! "activity_type" = Some (VStr s) ->
  all_render R
    (model_fields model [] ["interval_start"; "interval_end"; "count"; "course_id"])
    obj = true ->
  (exists out,
     to_representation R (CourseActivityByWeekSerializer.fields R model) obj = Ok out
     /\ odict_get out "activity_type"
        = Some (VStr (if decide (text_lower R s = "active") then "any"
                      else text_lower R s)))
  /\ (s ∈ ["Active"; "ACTIVE"; "active"] ->
      CourseActivityByWeekSerializer.get_activity_type R obj = Ok (VStr "any"))
  /\ (text_lower R s = "active" ->
      CourseActivityByWeekSerializer.get_activity_type R obj = Ok (VStr "any"))
  /\ (text_lower R s <> "active" ->
      CourseActivityByWeekSerializer.get_activity_type R obj
      = Ok (VStr (text_lower R s))).
Proof.
  intros Hs Hcols.
  assert (CourseActivityByWeekSerializer.get_activity_type R obj
          = Ok (VStr (if decide (text_lower R s = "active") then "any"
                      else text_lower R s))) as Hget.
  { unfold CourseActivityByWeekSerializer.get_activity_type. by rewrite Hs. }
  split; [|split; [|split]].
  - unfold all_render in Hcols.
    cbn [model_fields map forallb declared_field default fst snd] in Hcols.
    repeat (apply andb_prop in Hcols as [? Hcols]).
    destruct (to_representation_succeeds R (CourseActivityByWeekSerializer.fields R model) obj)
      as [out Hout].
    { rewrite CourseActivityByWeekSerializer_fields.
      unfold all_render. cbn [forallb fst snd].
      repeat (apply andb_true_intro; split); try done.
      unfold serialize_field. by rewrite Hget. }
    exists out. split; [done|].
    eapply to_representation_get; [exact Hout| | |].
    + rewrite CourseActivityByWeekSerializer_fields. cbn [fmap list_fmap fst].
      by apply (bool_decide_unpack _).
    + rewrite CourseActivityByWeekSerializer_fields.
      repeat constructor.
    + unfold serialize_field. by rewrite Hget.
  - intros Hin. rewrite Hget.
    repeat (apply elem_of_cons in Hin as [->|Hin]); [reflexivity..|].
    by apply elem_of_nil in Hin.
  - intros Ha. rewrite Hget. by rewrite decide_True.
  - intros Ha. rewrite Hget. by rewrite decide_False.
Qed.

Lemma activity_type_lowered_then_renamed_witness :
  (exists out,
     to_representation (Samples.runtime_ true)
       (CourseActivityByWeekSerializer.fields (Samples.runtime_ true) Samples.model_)
       (Samples.activity_row "Active") = Ok out
     /\ odict_get out "activity_type" = Some (VStr "any"))
  /\ CourseActivityByWeekSerializer.get_activity_type (Samples.runtime_ true)
       (Samples.activity_row "Played_Video") = Ok (VStr "played_video").
Proof.
  split.
  - destruct (activity_type_lowered_then_renamed (Samples.runtime_ true) Samples.model_
                (Samples.activity_row "Active") "Active") as [H _].
    + reflexivity.
    + vm_compute. reflexivity.
    + exact H.
  - destruct (activity_type_lowered_then_renamed (Samples.runtime_ true) Samples.model_
                (Samples.activity_row "Played_Video") "Played_Video")
      as (_ & _ & _ & H).
    + reflexivity.
    + vm_compute. reflexivity.
    + apply H. vm_compute. discriminate.
Defined.

(** ** Problems *)

(** The output of the problem serializer, field by field: a numeric field is
    the row's own value when the key is there, [None] included, and the
    declared default only when the key is missing. *)
Lemma ProblemSerializer_output (R : runtime) (S : settings) (row : dict)
    (m p : string) (c : datetime) :
  row !! "module_id" = Some (VStr m) ->
  row !! "part_ids" = Some (VStr p) ->
  row !! "created" = Some (VDateTime c) ->
  numeric_input R (row !! "total_submissions") = true ->
  numeric_input R (row !! "correct_submissions") = true ->
  to_representation R (ProblemSerializer S) row =
  Ok [("module_id", VStr m);
      ("total_submissions", default (VInt 0) (row !! "total_submissions"));
      ("correct_submissions", default (VInt 0) (row !! "correct_submissions"));
      ("part_ids", VStr p);
      ("created", VStr (strftime R (DATETIME_FORMAT S) c))].
Proof.
  intros Hm Hp Hc Ht Hk.
  unfold ProblemSerializer.
  rewrite !to_representation_cons.
  unfold serialize_field, get_attribute, attr, dict_attrs.
  cbn [source declare declare_default default default_value required field_kind].
  rewrite Hm, Hp, Hc. cbn [is_none field_to_representation mbind result_bind to_representation].
  unfold numeric_input in Ht, Hk.
  destruct (row !! "total_submissions") as [[]|], (row !! "correct_submissions") as [[]|];
    try discriminate; try rewrite Ht; try rewrite Hk; reflexivity.
Qed.

(** C1 as stated fails on the row of its own scenario: with
    [total_submissions] set to [None] the output carries [None] under that
    key, not the default 0. *)
Lemma problem_null_is_not_defaulted :
  to_representation (Samples.runtime_ true) (ProblemSerializer Samples.settings_)
    Samples.problem_row
  = Ok [("module_id", VStr "m1"); ("total_submissions", VNone);
        ("correct_submissions", VInt 3); ("part_ids", VStr "p1");
        ("created", VStr "%Y-%m-%dT%H%M%S")]
  /\ to_representation (Samples.runtime_ true) (ProblemSerializer Samples.settings_)
       Samples.problem_row
     <> Ok [("module_id", VStr "m1"); ("total_submissions", VInt 0);
            ("correct_submissions", VInt 3); ("part_ids", VStr "p1");
            ("created", VStr "%Y-%m-%dT%H%M%S")].
Proof.
  assert (to_representation (Samples.runtime_ true) (ProblemSerializer Samples.settings_)
            Samples.problem_row
          = Ok [("module_id", VStr "m1"); ("total_submissions", VNone);
                ("correct_submissions", VInt 3); ("part_ids", VStr "p1");
                ("created", VStr "%Y-%m-%dT%H%M%S")]) as H.
  { vm_compute. reflexivity. }
  split; [exact H|]. rewrite H. discriminate.
Qed.

(** A numeric field of the problem serializers, by what the row holds under
    its key. *)
Lemma numeric_field (R : runtime) (row : dict) (name : string) :
  serialize_field R name (Field (declare_default IntegerField (VInt 0))) row =
  match row !! name with
  | Some v => if is_none v then Ok (Some VNone)
              else r ← field_to_representation R IntegerField v; Ok (Some r)
  | None => if default_on_output R then Ok (Some (VInt 0)) else Raise (KeyError name)
  end.
Proof.
  unfold serialize_field, get_attribute, attr, dict_attrs.
  cbn [source declare_default default default_value required field_kind].
  destruct (row !! name) as [v|]; [reflexivity|].
  by destruct (default_on_output R).
Qed.

(** C1, amended: for a row with its text and date keys whose numeric fields
    are each an integer, [None] or absent.  When every numeric key is there,
    or the release falls back on defaults on output, the output has the five
    fields; total_submissions and correct_submissions each carry the integer
    the row holds (a real zero stays zero), [None] when the row holds [None]
    (the default is not substituted for a null), and the default 0 when the
    key is absent.  On a release without the fallback a row lacking a numeric
    key is not serialized: the serializer raises [KeyError] for such a key. *)
Theorem problem_numeric_fields (R : runtime) (S : settings) (row : dict)
    (m p : string) (c : datetime) :
  row !! "module_id" = Some (VStr m) ->
  row !! "part_ids" = Some (VStr p) ->
  row !! "created" = Some (VDateTime c) ->
  integer_null_or_absent (row !! "total_submissions") = true ->
  integer_null_or_absent (row !! "correct_submissions") = true ->
  (default_on_output R = true
   \/ (is_Some (row !! "total_submissions") /\ is_Some (row !! "correct_submissions")) ->
   exists out,
     to_representation R (ProblemSerializer S) row = Ok out
     /\ out.*1 = ["module_id"; "total_submissions"; "correct_submissions"; "part_ids";
                  "created"]
     /\ odict_get out "module_id" = Some (VStr m)
     /\ odict_get out "part_ids" = Some (VStr p)
     /\ odict_get out "created" = Some (VStr (strftime R (DATETIME_FORMAT S) c))
     /\ forall key, key ∈ ["total_submissions"; "correct_submissions"] ->
          (forall n, row !! key = Some (VInt n) -> odict_get out key = Some (VInt n))
          /\ (row !! key = Some VNone -> odict_get out key = Some VNone)
          /\ (row !! key = None -> odict_get out key = Some (VInt 0)))
  /\ (default_on_output R = false ->
      forall key, key ∈ ["total_submissions"; "correct_submissions"] ->
        row !! key = None ->
        exists key', key' ∈ ["total_submissions"; "correct_submissions"]
          /\ row !! key' = None
          /\ to_representation R (ProblemSerializer S) row = Raise (KeyError key')).
Proof.
  intros Hm Hp Hc Ht Hk. split.
  - intros Hserved.
    assert (numeric_input R (row !! "total_submissions") = true
            /\ numeric_input R (row !! "correct_submissions") = true) as [Ht' Hk'].
    { unfold numeric_input, integer_null_or_absent in *.
      destruct Hserved as [->|[[v Hv] [v' Hv']]].
      - by destruct (row !! "total_submissions") as [[]|],
          (row !! "correct_submissions") as [[]|].
      - rewrite Hv, Hv' in *. by destruct v, v'. }
    eexists. split; [by apply ProblemSerializer_output|].
    split; [reflexivity|]. split; [reflexivity|]. split; [reflexivity|].
    split; [reflexivity|].
    intros key Hkey.
    apply elem_of_cons in Hkey as [->|Hkey];
      [|apply elem_of_cons in Hkey as [->|Hkey]; [|by apply elem_of_nil in Hkey]];
      repeat split; intros; cbn; by simplify_option_eq.
  - intros Hrelease key Hkey Habsent.
    unfold ProblemSerializer. rewrite !to_representation_cons.
    rewrite !numeric_field, Hrelease.
    assert (serialize_field R "module_id" (Field (declare CharField)) row
            = Ok (Some (VStr m))) as ->.
    { unfold serialize_field, get_attribute, attr, dict_attrs.
      cbn [source declare default field_kind]. by rewrite Hm. }
    cbn [mbind result_bind].
    destruct (row !! "total_submissions") as [v|] eqn:Hv.
    + assert (row !! "correct_submissions" = None) as Hk'.
      { apply elem_of_cons in Hkey as [->|Hkey]; [congruence|].
        apply elem_of_cons in Hkey as [->|Hkey]; [done|by apply elem_of_nil in Hkey]. }
      exists "correct_submissions". split; [repeat constructor|]. split; [exact Hk'|].
      rewrite Hk'. unfold integer_null_or_absent in Ht. by destruct v.
    + exists "total_submissions". split; [repeat constructor|]. by split.
Qed.

Lemma problem_numeric_fields_witness :
  (exists out,
     to_representation (Samples.runtime_ true) (ProblemSerializer Samples.settings_)
       Samples.problem_row = Ok out
     /\ odict_get out "total_submissions" = Some VNone
     /\ odict_get out "correct_submissions" = Some (VInt 3))
  /\ (exists out,
        to_representation (Samples.runtime_ true) (ProblemSerializer Samples.settings_)
          MoreSamples.problem_row_without_total = Ok out
        /\ odict_get out "total_submissions" = Some (VInt 0))
  /\ (exists key,
        to_representation (Samples.runtime_ false) (ProblemSerializer Samples.settings_)
          MoreSamples.problem_row_without_total = Raise (KeyError key)).
Proof.
  split; [|split].
  - destruct (problem_numeric_fields (Samples.runtime_ true) Samples.settings_
                Samples.problem_row "m1" "p1" Samples.ts)
      as [Hserved _]; [reflexivity..|].
    destruct Hserved as (out & Hout & _ & _ & _ & _ & Hkeys); [by left|].
    exists out. split; [exact Hout|]. split.
    + apply (Hkeys "total_submissions"); [repeat constructor|reflexivity].
    + apply (Hkeys "correct_submissions"); [repeat constructor|reflexivity].
  - destruct (problem_numeric_fields (Samples.runtime_ true) Samples.settings_
                MoreSamples.problem_row_without_total "m1" "p1" Samples.ts)
      as [Hserved _]; [reflexivity..|].
    destruct Hserved as (out & Hout & _ & _ & _ & _ & Hkeys); [by left|].
    exists out. split; [exact Hout|].
    apply (Hkeys "total_submissions"); [repeat constructor|reflexivity].
  - destruct (problem_numeric_fields (Samples.runtime_ false) Samples.settings_
                MoreSamples.problem_row_without_total "m1" "p1" Samples.ts)
      as [_ Hrefused]; [reflexivity..|].
    destruct (Hrefused eq_refl "total_submissions") as (key & _ & _ & Hraise);
      [repeat constructor|reflexivity|].
    by exists key.
Defined.

(** ** Enrollment by mode *)

Import CourseEnrollmentModeDailySerializer.

Lemma CourseEnrollmentModeDailySerializer_fields (S : settings)
    (model : string -> attr_field) :
  CourseEnrollmentModeDailySerializer.fields S model =
  [("course_id", Field (model "course_id"));
   ("date", Field (declare (DateField (DATE_FORMAT S))));
   ("count", Field (model "count"));
   ("cumulative_count", Field (model "cumulative_count"));
   ("created", Field (declare (DateTimeField (DATETIME_FORMAT S))));
   ("audit", SerializerMethodField get_audit);
   ("credit", SerializerMethodField get_credit);
   ("honor", SerializerMethodField get_honor);
   ("professional", SerializerMethodField get_professional);
   ("verified", SerializerMethodField get_verified)].
Proof. reflexivity. Qed.

(** The method field of each mode returns [obj.get(mode, 0)]. *)
Lemma mode_field (R : runtime) (S : settings) (model : string -> attr_field)
    (obj : dict) (mode : string) :
  mode ∈ ENROLLMENT_MODES ->
  exists f,
    (mode, f) ∈ CourseEnrollmentModeDailySerializer.fields S model
    /\ serialize_field R mode f obj = Ok (Some (dict_get obj mode (VInt 0))).
Proof.
  intros Hmode. rewrite CourseEnrollmentModeDailySerializer_fields.
  unfold ENROLLMENT_MODES in Hmode.
  repeat (apply elem_of_cons in Hmode as [->|Hmode]);
    [..|by apply elem_of_nil in Hmode];
    eexists; (split; [repeat constructor|reflexivity]).
Qed.

(** C2: an enrollment-by-mode row whose five base columns render is
    serialized, and the output has a field for every mode of
    [ENROLLMENT_MODES]: the row's value for the mode when the row has the key,
    0 when it has not. *)
Theorem enrollment_modes_all_present (R : runtime) (S : settings)
    (model : string -> attr_field) (obj : dict) :
  all_render R
    (model_fields model (BaseCourseEnrollmentModelSerializer_declared S)
       ["course_id"; "date"; "count"; "cumulative_count"; "created"])
    obj = true ->
  exists out,
    to_representation R (CourseEnrollmentModeDailySerializer.fields S model) obj = Ok out
    /\ forall mode, mode ∈ ENROLLMENT_MODES ->
         (forall v, obj !! mode = Some v -> odict_get out mode = Some v)
         /\ (obj !! mode = None -> odict_get out mode = Some (VInt 0)).
Proof.
  intros Hbase.
  destruct (to_representation_succeeds R
              (CourseEnrollmentModeDailySerializer.fields S model) obj) as [out Hout].
  { rewrite CourseEnrollmentModeDailySerializer_fields.
    unfold all_render in *. cbn [forallb fst snd].
    change (model_fields model (BaseCourseEnrollmentModelSerializer_declared S)
              ["course_id"; "date"; "count"; "cumulative_count"; "created"])
      with [("course_id", Field (A:=dict_attrs) (model "course_id"));
            ("date", Field (declare (DateField (DATE_FORMAT S))));
            ("count", Field (model "count"));
            ("cumulative_count", Field (model "cumulative_count"));
            ("created", Field (declare (DateTimeField (DATETIME_FORMAT S))))] in Hbase.
    cbn [forallb fst snd] in Hbase.
    repeat (apply andb_prop in Hbase as [-> Hbase]). reflexivity. }
  exists out. split; [exact Hout|].
  intros mode Hmode.
  destruct (mode_field R S model obj mode Hmode) as (f & Hin & Hf).
  assert (odict_get out mode = Some (dict_get obj mode (VInt 0))) as Hget.
  { eapply to_representation_get; [exact Hout| |exact Hin|exact Hf].
    rewrite CourseEnrollmentModeDailySerializer_fields. cbn [fmap list_fmap fst].
    by apply (bool_decide_unpack _). }
  rewrite Hget. unfold dict_get.
  split; [intros v ->|intros ->]; reflexivity.
Qed.

Lemma enrollment_modes_all_present_witness :
  exists out,
    to_representation (Samples.runtime_ true)
      (CourseEnrollmentModeDailySerializer.fields Samples.settings_ Samples.model_)
      Samples.enrollment_row = Ok out
    /\ odict_get out "audit" = Some (VInt 4)
    /\ odict_get out "honor" = Some (VInt 0).
Proof.
  destruct (enrollment_modes_all_present (Samples.runtime_ true) Samples.settings_
              Samples.model_ Samples.enrollment_row) as (out & Hout & Hmodes).
  - vm_compute. reflexivity.
  - exists out. split; [exact Hout|]. split.
    + apply (Hmodes "audit"); [repeat constructor|reflexivity].
    + apply (Hmodes "honor"); [repeat constructor|reflexivity].
Defined.

(** ** Answer distributions *)

Lemma model_fields_names {I} `{!Attrs I} (model : string -> attr_field)
    (declared : list (string * field I)) (meta_fields : list string) :
  (model_fields model declared meta_fields).*1 = meta_fields.
Proof.
  unfold model_fields. induction meta_fields as [|name names IH]; [done|].
  cbn. by rewrite IH.
Qed.

Lemma model_fields_lookup {I} `{!Attrs I} (model : string -> attr_field)
    (declared : list (string * field I)) (meta_fields : list string) (name : string) :
  name ∈ meta_fields ->
  (name, default (Field (model name)) (declared_field declared name))
    ∈ model_fields model declared meta_fields.
Proof.
  intros Hin. unfold model_fields. apply list_elem_of_fmap. by exists name.
Qed.

(** C7: the fields of the first/last serializer are those of the base
    distribution serializer without [count], which is filtered out by name,
    followed by [first_response_count] and [last_response_count]; every other
    name of the base is kept, bound to the same field as in the base
    serializer over the same model columns; and no output of the serializer
    has a [count] key. *)
Theorem first_last_field_set (S : settings) (model : string -> attr_field) :
  (ProblemFirstLastResponseAnswerDistributionSerializer.fields S model).*1
    = ["course_id"; "module_id"; "part_id"; "correct"; "value_id"; "answer_value";
       "problem_display_name"; "question_text"; "variant"; "created";
       "first_response_count"; "last_response_count"]
  /\ (forall name,
        name ∈ (ProblemFirstLastResponseAnswerDistributionSerializer.fields S model).*1
        <-> (name ∈ (ProblemResponseAnswerDistributionSerializer.fields S model).*1
             /\ name <> "count")
            \/ name = "first_response_count" \/ name = "last_response_count")
  /\ (forall name f,
        name <> "count" ->
        (name, f) ∈ ProblemResponseAnswerDistributionSerializer.fields S model ->
        (name, f) ∈ ProblemFirstLastResponseAnswerDistributionSerializer.fields S model)
  /\ (forall (R : runtime) (obj : object) out,
        to_representation R
          (ProblemFirstLastResponseAnswerDistributionSerializer.fields S model) obj = Ok out ->
        odict_get out "count" = None).
Proof.
  assert (forall (R : runtime) (obj : object) out,
            to_representation R
              (ProblemFirstLastResponseAnswerDistributionSerializer.fields S model) obj
              = Ok out ->
            odict_get out "count" = None) as Hout.
  { intros R obj out Hout. eapply to_representation_keys; [exact Hout|].
    unfold ProblemFirstLastResponseAnswerDistributionSerializer.fields.
    rewrite model_fields_names. by apply (bool_decide_unpack _). }
  revert Hout.
  assert (ProblemFirstLastResponseAnswerDistributionSerializer.Meta_fields
          = ["course_id"; "module_id"; "part_id"; "correct"; "value_id"; "answer_value";
             "problem_display_name"; "question_text"; "variant"; "created";
             "first_response_count"; "last_response_count"]) as Hfl by reflexivity.
  unfold ProblemFirstLastResponseAnswerDistributionSerializer.fields,
    ProblemResponseAnswerDistributionSerializer.fields.
  rewrite !model_fields_names. intros Hout.
  split; [exact Hfl|split; [|split; [|exact Hout]]].
  - intros name.
    unfold ProblemFirstLastResponseAnswerDistributionSerializer.Meta_fields.
    rewrite list_elem_of_filter, elem_of_app, !elem_of_cons, elem_of_nil.
    split.
    + intros (Hne & [Hb|[Ha|[Hb|Hf]]]); [left|right; left|right; right|]; done.
    + intros [[Hb Hne]|[Ha|Hb]]; subst; (split; [done|]); auto.
  - intros name f Hne Hin.
    apply list_elem_of_fmap in Hin as (name' & Heq & Hin).
    pose proof (f_equal fst Heq) as Hn. cbn [fst] in Hn. subst name. rewrite Heq.
    apply (model_fields_lookup model
             (ProblemFirstLastResponseAnswerDistributionSerializer.declared S)
             ProblemFirstLastResponseAnswerDistributionSerializer.Meta_fields name').
    unfold ProblemFirstLastResponseAnswerDistributionSerializer.Meta_fields.
    rewrite list_elem_of_filter, elem_of_app. auto.
Qed.

Lemma first_last_field_set_witness :
  ("count" ∉ (ProblemFirstLastResponseAnswerDistributionSerializer.fields
                Samples.settings_ Samples.model_).*1)
  /\ ("part_id", Field (Samples.model_ "part_id"))
     ∈ ProblemFirstLastResponseAnswerDistributionSerializer.fields
         Samples.settings_ Samples.model_.
Proof.
  destruct (first_last_field_set Samples.settings_ Samples.model_)
    as (_ & Hnames & Hkept).
  split.
  - intros Hcount. apply Hnames in Hcount as [[_ Hne]|[Heq|Heq]];
      [by apply Hne|discriminate Heq|discriminate Heq].
  - apply Hkept; [discriminate|]. repeat constructor.
Defined.

Lemma all_render_app {I} (R : runtime) (l1 l2 : list (string * field I)) (instance : I) :
  all_render R (l1 ++ l2) instance
  = (all_render R l1 instance && all_render R l2 instance)%bool.
Proof. apply forallb_app. Qed.

Lemma ConsolidatedAnswerDistributionSerializer_fields (S : settings)
    (model : string -> attr_field) :
  ConsolidatedAnswerDistributionSerializer.fields S model =
  (ProblemResponseAnswerDistributionSerializer.fields S model
     ++ [("consolidated_variant", Field (declare BooleanField))])%list.
Proof. reflexivity. Qed.

Lemma ConsolidatedFirstLastAnswerDistributionSerializer_fields (S : settings)
    (model : string -> attr_field) :
  ConsolidatedFirstLastAnswerDistributionSerializer.fields S model =
  (ProblemFirstLastResponseAnswerDistributionSerializer.fields S model
     ++ [("consolidated_variant", Field (declare BooleanField))])%list.
Proof. reflexivity. Qed.

(** The declared flag read from a model object: the caller's boolean, [None]
    when the caller set [None], and a raised lookup error when the object has
    no such attribute. *)
Lemma consolidated_variant_field (R : runtime) (obj : object) :
  serialize_field R "consolidated_variant" (Field (declare BooleanField)) obj =
  match attrs_of obj !! "consolidated_variant" with
  | Some (VBool b) => Ok (Some (VBool b))
  | Some VNone => Ok (Some VNone)
  | Some v => r ← coerce R BooleanField v; Ok (Some r)
  | None => Raise (AttributeError "consolidated_variant")
  end.
Proof.
  unfold serialize_field, get_attribute, attr, object_attrs.
  cbn [source declare default default_value required field_kind].
  destruct (attrs_of obj !! "consolidated_variant") as [[]|]; try reflexivity.
  by destruct (default_on_output R).
Qed.

(** A serializer that appends the declared flag to the fields [base]. *)
Lemma with_consolidated_variant (R : runtime) (base : list (string * field object))
    (obj : object) :
  NoDup (base ++ [("consolidated_variant", Field (declare BooleanField))]).*1 ->
  all_render R base obj = true ->
  (forall b, attrs_of obj !! "consolidated_variant" = Some (VBool b) ->
     exists out,
       to_representation R
         (base ++ [("consolidated_variant", Field (declare BooleanField))]) obj = Ok out
       /\ odict_get out "consolidated_variant" = Some (VBool b))
  /\ (attrs_of obj !! "consolidated_variant" = None ->
      exists e,
        to_representation R
          (base ++ [("consolidated_variant", Field (declare BooleanField))]) obj = Raise e)
  /\ (forall out,
        to_representation R
          (base ++ [("consolidated_variant", Field (declare BooleanField))]) obj = Ok out ->
        is_Some (attrs_of obj !! "consolidated_variant")
        /\ is_Some (odict_get out "consolidated_variant")).
Proof.
  intros Hnd Hbase. split; [|split].
  - intros b Hb.
    pose proof (consolidated_variant_field R obj) as Hf. rewrite Hb in Hf.
    destruct (to_representation_succeeds R
                (base ++ [("consolidated_variant", Field (declare BooleanField))]) obj)
      as [out Hout].
    { rewrite all_render_app, Hbase. unfold all_render. cbn [forallb fst snd].
      by rewrite Hf. }
    exists out. split; [exact Hout|].
    eapply to_representation_get; [exact Hout|exact Hnd| |exact Hf].
    apply elem_of_app. right. constructor.
  - intros Hmissing.
    pose proof (consolidated_variant_field R obj) as Hf. rewrite Hmissing in Hf.
    eapply to_representation_raises; [|exact Hf].
    apply elem_of_app. right. constructor.
  - intros out Hout.
    assert (("consolidated_variant", Field (declare BooleanField))
            ∈ base ++ [("consolidated_variant", Field (A := object_attrs)
                                                  (declare BooleanField))]) as Hin.
    { apply elem_of_app. right. constructor. }
    destruct (serialize_field R "consolidated_variant" (Field (declare BooleanField)) obj)
      as [r|e] eqn:Hf.
    + pose proof Hf as Hrendered. rewrite consolidated_variant_field in Hf.
      destruct (attrs_of obj !! "consolidated_variant") as [v|]; [|discriminate Hf].
      split; [by eexists|].
      assert (exists r', r = Some r') as [r' ->].
      { destruct v; try (injection Hf as <-; by eexists);
          destruct (coerce R BooleanField _); try discriminate Hf;
          injection Hf as <-; by eexists. }
      exists r'. by eapply to_representation_get.
    + destruct (to_representation_raises R _ obj _ _ e Hin Hf) as [e' He'].
      rewrite He' in Hout. discriminate Hout.
Qed.

(** C8: both consolidated serializers, on a model object whose model columns
    render, put [consolidated_variant] in the output with the boolean the
    caller set on the object; the field is declared on the serializer, whatever
    the columns of the model.  Every output they produce has the field, and
    only for an object the caller set the flag on: when the attribute is
    missing the serializer raises instead of making a value up. *)
Theorem consolidated_variant_from_caller (R : runtime) (S : settings)
    (model model_first_last : string -> attr_field) (obj : object) :
  all_render R (ProblemResponseAnswerDistributionSerializer.fields S model) obj = true ->
  all_render R
    (ProblemFirstLastResponseAnswerDistributionSerializer.fields S model_first_last)
    obj = true ->
  (forall b, attrs_of obj !! "consolidated_variant" = Some (VBool b) ->
     (exists out,
        to_representation R (ConsolidatedAnswerDistributionSerializer.fields S model) obj
          = Ok out
        /\ odict_get out "consolidated_variant" = Some (VBool b))
     /\ (exists out,
           to_representation R
             (ConsolidatedFirstLastAnswerDistributionSerializer.fields S model_first_last)
             obj = Ok out
           /\ odict_get out "consolidated_variant" = Some (VBool b)))
  /\ (attrs_of obj !! "consolidated_variant" = None ->
      (exists e,
         to_representation R (ConsolidatedAnswerDistributionSerializer.fields S model) obj
           = Raise e)
      /\ (exists e,
            to_representation R
              (ConsolidatedFirstLastAnswerDistributionSerializer.fields S model_first_last)
              obj = Raise e))
  /\ (forall out,
        to_representation R (ConsolidatedAnswerDistributionSerializer.fields S model) obj
          = Ok out
        \/ to_representation R
             (ConsolidatedFirstLastAnswerDistributionSerializer.fields S model_first_last)
             obj = Ok out ->
        is_Some (attrs_of obj !! "consolidated_variant")
        /\ is_Some (odict_get out "consolidated_variant")).
Proof.
  intros Hbase Hfl.
  rewrite ConsolidatedAnswerDistributionSerializer_fields,
    ConsolidatedFirstLastAnswerDistributionSerializer_fields.
  destruct (with_consolidated_variant R _ obj
              ltac:(rewrite <- ConsolidatedAnswerDistributionSerializer_fields;
                    unfold ConsolidatedAnswerDistributionSerializer.fields;
                    rewrite model_fields_names; by apply (bool_decide_unpack _)) Hbase)
    as (Hok & Hraise & Hall).
  destruct (with_consolidated_variant R _ obj
              ltac:(rewrite <- ConsolidatedFirstLastAnswerDistributionSerializer_fields;
                    unfold ConsolidatedFirstLastAnswerDistributionSerializer.fields;
                    rewrite model_fields_names; by apply (bool_decide_unpack _)) Hfl)
    as (Hok' & Hraise' & Hall').
  split; [|split].
  - intros b Hb. split; [by apply Hok|by apply Hok'].
  - intros Hmissing. split; [by apply Hraise|by apply Hraise'].
  - intros out [Hout|Hout]; [by apply Hall|by apply Hall'].
Qed.

Lemma consolidated_variant_from_caller_witness :
  (exists out,
     to_representation (Samples.runtime_ false)
       (ConsolidatedAnswerDistributionSerializer.fields Samples.settings_ Samples.model_)
       Samples.distribution_row = Ok out
     /\ odict_get out "consolidated_variant" = Some (VBool true)).
Proof.
  destruct (consolidated_variant_from_caller (Samples.runtime_ false) Samples.settings_
              Samples.model_ Samples.model_ Samples.distribution_row) as [Hok _].
  - vm_compute. reflexivity.
  - vm_compute. reflexivity.
  - destruct (Hok true) as [H _]; [reflexivity|exact H].
Defined.

(** The serializers above read the flag from the object.  On a 3.x release
    nothing puts it there through [restore_object]: the framework does not
    call the method, and a direct call raises once the flag is popped. *)
Lemma restore_object_without_inherited (attrs : dict) (instance : option object) :
  ConsolidatedAnswerDistributionSerializer.restore_object None attrs instance
  = (delete "consolidated_variant" attrs, Raise (AttributeError "restore_object")).
Proof. reflexivity. Qed.

(** ** Learner engagements *)

(** C10: in the engagements of a learner, discussion_contributions,
    problems_attempted, problems_completed and videos_viewed are the learner's
    value, or 0 when the attribute is missing or [None];
    problem_attempts_per_completed is the learner's value, and [None] when the
    attribute is missing or [None]: it is never replaced by a default. *)
Theorem engagements_defaults (obj : object) :
  (forall name,
     name ∈ ["discussion_contributions"; "problems_attempted";
             "problems_completed"; "videos_viewed"] ->
     LearnerSerializer.get_engagements obj !! name =
     Some (match attrs_of obj !! name with
           | Some VNone | None => VInt 0
           | Some v => v
           end))
  /\ LearnerSerializer.get_engagements obj !! "problem_attempts_per_completed" =
     Some (match attrs_of obj !! "problem_attempts_per_completed" with
           | Some v => v
           | None => VNone
           end)
  /\ ((attrs_of obj !! "problem_attempts_per_completed" = None
       \/ attrs_of obj !! "problem_attempts_per_completed" = Some VNone) ->
      LearnerSerializer.get_engagements obj !! "problem_attempts_per_completed"
      = Some VNone).
Proof.
  assert (forall name, default_if_none (getattr_default obj name VNone) (VInt 0)
                       = match attrs_of obj !! name with
                         | Some VNone | None => VInt 0
                         | Some v => v
                         end) as Hdefault.
  { intros name. unfold default_if_none, getattr_default.
    by destruct (attrs_of obj !! name) as [[]|]. }
  assert (LearnerSerializer.get_engagements obj !! "problem_attempts_per_completed" =
          Some (match attrs_of obj !! "problem_attempts_per_completed" with
                | Some v => v
                | None => VNone
                end)) as Hpac.
  { unfold LearnerSerializer.get_engagements. by rewrite lookup_insert_eq. }
  split; [|split].
  - intros name Hname.
    unfold LearnerSerializer.get_engagements. cbn [foldl].
    rewrite <- Hdefault.
    repeat (apply elem_of_cons in Hname as [->|Hname]);
      [..|by apply elem_of_nil in Hname];
      by simplify_map_eq.
  - exact Hpac.
  - intros [H|H]; rewrite Hpac, H; reflexivity.
Qed.

Lemma engagements_defaults_witness :
  LearnerSerializer.get_engagements Samples.learner !! "videos_viewed" = Some (VInt 3)
  /\ LearnerSerializer.get_engagements Samples.learner !! "problems_attempted" = Some (VInt 0)
  /\ LearnerSerializer.get_engagements Samples.learner !! "problems_completed" = Some (VInt 0)
  /\ LearnerSerializer.get_engagements Samples.learner !! "problem_attempts_per_completed"
     = Some VNone.
Proof.
  destruct (engagements_defaults Samples.learner) as (Hfields & _ & Hpac).
  split; [|split; [|split]].
  - apply (Hfields "videos_viewed"). repeat constructor.
  - apply (Hfields "problems_attempted"). repeat constructor.
  - apply (Hfields "problems_completed"). repeat constructor.
  - apply Hpac. by left.
Defined.

(** ** Engagement ranges *)

Import CourseLearnerMetadataSerializer.

Lemma first_or_none_head (query_set : list range_row) :
  first_or_none query_set = head query_set.
Proof. by destruct query_set. Qed.

Lemma first_of_filter_first_match (m t : string) (query_set : list range_row)
    (r : range_row) :
  first_match m t query_set r -> first_or_none (qs_filter m t query_set) = Some r.
Proof.
  intros (before & after & -> & Hm & Ht & Hbefore).
  rewrite first_or_none_head. unfold qs_filter.
  induction Hbefore as [|r' before Hr' _ IH].
  - cbn [app]. by rewrite filter_cons_True.
  - cbn [app]. by rewrite filter_cons_False.
Qed.

Lemma first_of_filter_no_match (m t : string) (query_set : list range_row) :
  no_match m t query_set -> first_or_none (qs_filter m t query_set) = None.
Proof.
  intros Hnone. rewrite first_or_none_head. unfold qs_filter.
  induction Hnone as [|r' query_set Hr' _ IH]; [done|].
  by rewrite filter_cons_False.
Qed.

(** Every queryset has a first match or none, for each metric and type. *)
Lemma first_match_or_none (m t : string) (query_set : list range_row) :
  no_match m t query_set \/ exists r, first_match m t query_set r.
Proof.
  induction query_set as [|r0 query_set IH].
  - left. constructor.
  - destruct (decide (metric r0 = m /\ range_type r0 = t)) as [[Hm Ht]|Hno].
    + right. exists r0, [], query_set. by repeat split.
    + destruct IH as [Hnone|(r & before & after & -> & Hm & Ht & Hbefore)].
      * left. by constructor.
      * right. exists r, (r0 :: before), after. repeat split; try done.
        by constructor.
Qed.

(** The entry of one metric: never raises, one bucket per range type. *)
Lemma metric_entry_output (R : runtime) (query_set : list range_row) (m : string) :
  metric_entry R query_set m =
  Ok [("below_average",
       EnagementRangeMetricSerializer._transform_range
         (first_or_none (qs_filter m "low" query_set)));
      ("average",
       EnagementRangeMetricSerializer._transform_range
         (first_or_none (qs_filter m "normal" query_set)));
      ("above_average",
       EnagementRangeMetricSerializer._transform_range
         (first_or_none (qs_filter m "high" query_set)))].
Proof.
  unfold metric_entry, data, EnagementRangeMetricSerializer.fields.
  rewrite !to_representation_cons.
  unfold serialize_field, EnagementRangeMetricSerializer.get_below_average_range,
    EnagementRangeMetricSerializer.get_average_range,
    EnagementRangeMetricSerializer.get_above_average_range,
    EnagementRangeMetricSerializer.getitem.
  rewrite lookup_insert_eq.
  rewrite (lookup_insert_ne _ "low_range" "normal_range") by done.
  rewrite lookup_insert_eq.
  rewrite (lookup_insert_ne _ "low_range" "high_range") by done.
  rewrite (lookup_insert_ne _ "normal_range" "high_range") by done.
  rewrite lookup_insert_eq.
  reflexivity.
Qed.

(** The loop over the metrics: it returns, every metric looped over has its
    entry, and the other keys are left as they were. *)
Lemma for_metrics_output (R : runtime) (events : list string)
    (query_set : list range_row) (acc : gmap string (list (string * value))) :
  exists out,
    for_metrics R events query_set acc = Ok out
    /\ (forall m entry,
          m ∈ events -> metric_entry R query_set m = Ok entry -> out !! m = Some entry)
    /\ (forall k, k ∉ events -> out !! k = acc !! k).
Proof.
  revert acc. induction events as [|m events IH]; intros acc.
  - exists acc. split; [done|]. split; [|done].
    intros m entry Hm. by apply elem_of_nil in Hm.
  - cbn [for_metrics]. rewrite metric_entry_output. cbn [mbind result_bind].
    match goal with |- context [<[m := ?e]> acc] =>
      destruct (IH (<[m := e]> acc)) as (out & -> & Hin & Hout) end.
    exists out. split; [done|]. split.
    + intros m' entry Hm' Hentry.
      destruct (decide (m' ∈ events)) as [Hev|Hev]; [by apply Hin|].
      apply elem_of_cons in Hm' as [->|Hm']; [|done].
      rewrite (Hout m Hev), lookup_insert_eq.
      rewrite metric_entry_output in Hentry. by injection Hentry as <-.
    + intros k Hk. apply not_elem_of_cons in Hk as [Hne Hk].
      rewrite (Hout k Hk). by rewrite lookup_insert_ne.
Qed.

(** The shaper returns as soon as the date range renders, and then holds the
    entry of every known metric. *)
Lemma get_engagement_ranges_output (R : runtime) (S : settings) (EVENTS : list string)
    (obj : gmap string (list range_row)) (query_set : list range_row) (m : string) :
  obj !! "engagement_ranges" = Some query_set ->
  succeeds (data R (DateRangeSerializer S) (first_or_none query_set)) = true ->
  m ∈ EVENTS ->
  exists out entry,
    get_engagement_ranges R S EVENTS obj = Ok out
    /\ out !! m = Some entry
    /\ metric_entry R query_set m = Ok entry.
Proof.
  intros Hobj Hdate Hm. unfold get_engagement_ranges. rewrite Hobj.
  destruct (data R (DateRangeSerializer S) (first_or_none query_set)) as [date_range|e];
    [|discriminate Hdate].
  cbn [mbind result_bind].
  destruct (for_metrics_output R EVENTS query_set {["date_range" := date_range]})
    as (out & -> & Hin & _).
  eexists out, _. split; [done|]. split; [|apply metric_entry_output].
  apply Hin; [exact Hm|apply metric_entry_output].
Qed.

(** C4: when the input has no row at all for a known metric, the output of
    the shaper still has the metric's key, and below_average, average and
    above_average under it are all [None]. *)
Theorem metric_without_rows_is_kept (R : runtime) (S : settings) (EVENTS : list string)
    (obj : gmap string (list range_row)) (query_set : list range_row) (m : string) :
  obj !! "engagement_ranges" = Some query_set ->
  succeeds (data R (DateRangeSerializer S) (first_or_none query_set)) = true ->
  m ∈ EVENTS ->
  Forall (fun r => metric r <> m) query_set ->
  exists out,
    get_engagement_ranges R S EVENTS obj = Ok out
    /\ out !! m =
       Some [("below_average", VNone); ("average", VNone); ("above_average", VNone)].
Proof.
  intros Hobj Hdate Hm Hnone.
  destruct (get_engagement_ranges_output R S EVENTS obj query_set m Hobj Hdate Hm)
    as (out & entry & Hout & Hentry & Heq).
  exists out. split; [exact Hout|]. rewrite Hentry. f_equal.
  rewrite metric_entry_output in Heq. injection Heq as <-.
  assert (forall t, no_match m t query_set) as Hno.
  { intros t. unfold no_match. eapply Forall_impl; [exact Hnone|].
    intros r Hr [Hr' _]. by apply Hr. }
  by rewrite !first_of_filter_no_match.
Qed.

Lemma metric_without_rows_is_kept_witness :
  exists out,
    get_engagement_ranges (Samples.runtime_ true) Samples.settings_ Samples.EVENTS
      Samples.metadata = Ok out
    /\ out !! "problems_attempted" =
       Some [("below_average", VNone); ("average", VNone); ("above_average", VNone)].
Proof.
  apply (metric_without_rows_is_kept (Samples.runtime_ true) Samples.settings_ Samples.EVENTS
           Samples.metadata Samples.ranges "problems_attempted").
  - reflexivity.
  - reflexivity.
  - repeat constructor.
  - repeat constructor; discriminate.
Defined.

(** C5: for a known metric and each range type, the bucket of the output is
    the pair [low_value, high_value] of the first row of the input, in its
    order, that is for this metric and type, whatever rows follow it; and it
    is [None] when no row is for this metric and type. *)
Theorem first_row_in_input_order_wins (R : runtime) (S : settings)
    (EVENTS : list string) (obj : gmap string (list range_row))
    (query_set : list range_row) (m : string) :
  obj !! "engagement_ranges" = Some query_set ->
  succeeds (data R (DateRangeSerializer S) (first_or_none query_set)) = true ->
  m ∈ EVENTS ->
  exists out entry,
    get_engagement_ranges R S EVENTS obj = Ok out
    /\ out !! m = Some entry
    /\ forall t key, (t, key) ∈ buckets ->
         (forall r, first_match m t query_set r ->
            odict_get entry key = Some (VList [low_value r; high_value r]))
         /\ (no_match m t query_set -> odict_get entry key = Some VNone).
Proof.
  intros Hobj Hdate Hm.
  destruct (get_engagement_ranges_output R S EVENTS obj query_set m Hobj Hdate Hm)
    as (out & entry & Hout & Hentry & Heq).
  exists out, entry. split; [exact Hout|]. split; [exact Hentry|].
  rewrite metric_entry_output in Heq. injection Heq as <-.
  intros t key Hb. unfold buckets in Hb.
  repeat (apply elem_of_cons in Hb as [[= -> ->]|Hb]); [..|by apply elem_of_nil in Hb];
    (split;
     [intros r Hr; rewrite (first_of_filter_first_match _ _ _ _ Hr)
     |intros Hno; rewrite (first_of_filter_no_match _ _ _ Hno)]; reflexivity).
Qed.

Lemma first_row_in_input_order_wins_witness :
  exists out entry,
    get_engagement_ranges (Samples.runtime_ true) Samples.settings_ Samples.EVENTS
      Samples.metadata = Ok out
    /\ out !! "videos_viewed" = Some entry
    /\ odict_get entry "below_average" = Some (VList [VFloat 0; VFloat 1.5])
    /\ odict_get entry "average" = Some VNone.
Proof.
  destruct (first_row_in_input_order_wins (Samples.runtime_ true) Samples.settings_ Samples.EVENTS
              Samples.metadata Samples.ranges "videos_viewed")
    as (out & entry & Hout & Hentry & Hbuckets).
  - reflexivity.
  - reflexivity.
  - repeat constructor.
  - exists out, entry. split; [exact Hout|]. split; [exact Hentry|]. split.
    + destruct (Hbuckets "low" "below_average") as [Hfirst _]; [repeat constructor|].
      apply (Hfirst (Samples.range_ "videos_viewed" "low" 0 1.5)).
      exists [], (tail Samples.ranges). repeat split. constructor.
    + destruct (Hbuckets "normal" "average") as [_ Hnone]; [repeat constructor|].
      apply Hnone. repeat constructor; intros [_ H]; discriminate H.
Defined.

(** ** Connection bootstrap *)

Section Bootstrap.
Context {module definition : Type}.
Context (import_module : string -> result module).
Context (getattr : module -> string -> result (Apps.param definition)).
Implicit Types (params : gmap string (Apps.param definition)).

Abbreviation ready := (Apps.ready import_module getattr).

(** A key set from a setting, after the [None] values are removed: there with
    the setting's string, or not there when the setting is [None]. *)
Lemma stripped_setting params (key : string) (o : option string) :
  params !! key = Some (Apps.of_setting o) ->
  filter (fun kv => Apps.param_is_none kv.2 = false) params !! key = Apps.PStr <$> o.
Proof.
  intros Hkey. destruct o as [s|]; cbn.
  - apply map_lookup_filter_Some. by split.
  - apply map_lookup_filter_None. right. intros v Hv.
    rewrite Hkey in Hv. injection Hv as <-. cbn. discriminate.
Qed.

Lemma stripped_not_none params (key : string) (v : Apps.param definition) :
  filter (fun kv => Apps.param_is_none kv.2 = false) params !! key = Some v ->
  v <> Apps.PNone.
Proof.
  intros Hv. apply map_lookup_filter_Some in Hv as [_ Hv].
  intros ->. discriminate Hv.
Qed.

(** C9: without a configured host (the setting is [None] or empty) the
    bootstrap creates no connection; with one, whenever it gets as far as
    creating the connection, no parameter it passes is [None]: each key set
    from a setting is passed with the setting's string, or left out when the
    setting is [None].  It gets that far whenever no connection class is
    configured. *)
Theorem bootstrap_strips_unset (S : settings) :
  (Apps.setting_truthy (ELASTICSEARCH_LEARNERS_HOST S) = false -> ready S = Ok [])
  /\ (Apps.setting_truthy (ELASTICSEARCH_LEARNERS_HOST S) = true ->
      forall events, ready S = Ok events ->
      exists host params,
        ELASTICSEARCH_LEARNERS_HOST S = Some host
        /\ events = [Apps.CreateConnection params]
        /\ (forall key v, params !! key = Some v -> v <> Apps.PNone)
        /\ params !! "hosts" = Some (Apps.PList [host])
        /\ params !! "aws_access_key_id"
           = Apps.PStr <$> ELASTICSEARCH_AWS_ACCESS_KEY_ID S
        /\ params !! "aws_secret_access_key"
           = Apps.PStr <$> ELASTICSEARCH_AWS_SECRET_ACCESS_KEY S
        /\ params !! "region"
           = Apps.PStr <$> ELASTICSEARCH_CONNECTION_DEFAULT_REGION S)
  /\ (Apps.setting_truthy (ELASTICSEARCH_LEARNERS_HOST S) = true ->
      Apps.setting_truthy (ELASTICSEARCH_CONNECTION_CLASS S) = false ->
      exists params, ready S = Ok [Apps.CreateConnection params]).
Proof.
  split; [|split].
  - intros Hhost. unfold Apps.ready. by rewrite Hhost.
  - intros Hhost events Hready. unfold Apps.ready in Hready. rewrite Hhost in Hready.
    destruct (ELASTICSEARCH_LEARNERS_HOST S) as [host|] eqn:Hh; [|discriminate Hhost].
    cbn [default] in Hready.
    match type of Hready with
    | mbind _ ?b = _ => destruct b as [base|e] eqn:Hbase; [|discriminate Hready]
    end.
    cbn [mbind result_bind] in Hready. injection Hready as <-.
    assert (base !! "hosts" = Some (Apps.PList [host])) as Hhosts.
    { destruct (Apps.setting_truthy (ELASTICSEARCH_CONNECTION_CLASS S)).
      - destruct (Apps.load_fully_qualified_definition _ _ _) as [c|e];
          [|discriminate Hbase].
        cbn [mbind result_bind] in Hbase. injection Hbase as <-.
        rewrite lookup_insert_ne by done. by rewrite lookup_singleton_eq.
      - injection Hbase as <-. by rewrite lookup_singleton_eq. }
    eexists host, _. split; [done|]. split; [done|].
    split; [apply stripped_not_none|].
    split; [|split; [|split]].
    + apply map_lookup_filter_Some. split; [|done].
      by rewrite !lookup_insert_ne by done.
    + apply stripped_setting.
      do 2 (rewrite lookup_insert_ne by done). by rewrite lookup_insert_eq.
    + apply stripped_setting.
      rewrite lookup_insert_ne by done. by rewrite lookup_insert_eq.
    + apply stripped_setting. by rewrite lookup_insert_eq.
  - intros Hhost Hclass. unfold Apps.ready. rewrite Hhost, Hclass.
    cbn [mbind result_bind]. by eexists.
Qed.

End Bootstrap.

Lemma bootstrap_strips_unset_witness :
  exists params,
    Apps.ready (module := unit) (definition := unit)
      (fun name => Raise (ImportError name)) (fun _ _ => Ok Apps.PNone)
      Samples.settings_ = Ok [Apps.CreateConnection params]
    /\ params !! "hosts" = Some (Apps.PList ["localhost:9200"])
    /\ params !! "aws_access_key_id" = None
    /\ params !! "aws_secret_access_key" = Some (Apps.PStr "secret").
Proof.
  destruct (bootstrap_strips_unset (module := unit) (definition := unit)
              (fun name => Raise (ImportError name)) (fun _ _ => Ok Apps.PNone)
              Samples.settings_) as (_ & Hparams & Hruns).
  destruct (Hruns eq_refl eq_refl) as [params Hready].
  destruct (Hparams eq_refl _ Hready)
    as (host & params' & Hhost & Hevents & _ & Hhosts & Hkey & Hsecret & _).
  injection Hhost as <-. injection Hevents as <-.
  exists params. by repeat split.
Defined.

(** ** Dotted names *)

Lemma rsplit1_None (sep : ascii) (s : string) :
  Apps.rsplit1 sep s = None <-> occurs sep s = false.
Proof.
  induction s as [|c s IH]; [done|]. cbn [Apps.rsplit1 occurs].
  destruct (Apps.rsplit1 sep s) as [[a b]|].
  - split; [done|]. intros H. apply orb_false_elim in H as [_ H].
    apply IH in H. discriminate H.
  - destruct IH as [IH _]. rewrite (IH eq_refl), orb_false_r.
    by destruct (Ascii.eqb c sep).
Qed.

Lemma occurs_app_sep (sep : ascii) (a b : string) :
  occurs sep (a ++ String sep b)%string = true.
Proof.
  induction a as [|c a IH]; simpl.
  - by rewrite Ascii.eqb_refl.
  - by rewrite IH, orb_true_r.
Qed.

Lemma rsplit1_Some (sep : ascii) (s a b : string) :
  Apps.rsplit1 sep s = Some (a, b)
  <-> s = (a ++ String sep b)%string /\ occurs sep b = false.
Proof.
  revert a b. induction s as [|c s IH]; intros a b.
  - split; [done|]. intros [H _]. by destruct a.
  - cbn [Apps.rsplit1].
    destruct (Apps.rsplit1 sep s) as [[a' b']|] eqn:Hs.
    + destruct (proj1 (IH a' b') eq_refl) as [Hdec Hb'].
      split.
      * intros [= <- <-]. split; [|done]. rewrite Hdec at 1. reflexivity.
      * intros [Heq Hb]. destruct a as [|c' a]; simpl in Heq.
        -- injection Heq as -> Heq.
           apply rsplit1_None in Hb.
           rewrite <- Heq in Hb. rewrite Hb in Hs. discriminate Hs.
        -- injection Heq as -> Heq.
           pose proof (proj2 (IH a b) (conj Heq Hb)) as Hs'.
           by injection Hs' as -> ->.
    + pose proof (proj1 (rsplit1_None sep s) Hs) as Hocc. split.
      * destruct (Ascii.eqb_spec c sep) as [->|Hne]; [|done].
        by intros [= <- <-].
      * intros [Heq Hb]. destruct a as [|c' a]; simpl in Heq.
        -- injection Heq as -> ->. by rewrite Ascii.eqb_refl.
        -- injection Heq as -> ->. by rewrite occurs_app_sep in Hocc.
Qed.

Section Loading.
Context {module definition : Type}.
Context (import_module : string -> result module).
Context (getattr : module -> string -> result (Apps.param definition)).

(** X1: a definition without a dot cannot be unpacked into module and class:
    [ValueError], whatever could be imported. *)
Theorem load_without_dot (name : string) :
  occurs "." name = false ->
  Apps.load_fully_qualified_definition import_module getattr name = Raise ValueError.
Proof.
  intros H. unfold Apps.load_fully_qualified_definition.
  apply rsplit1_None in H. by rewrite H.
Qed.

(** X2: a dotted definition is split at its last dot: the module is everything
    before it, dots included, and the class the rest. *)
Theorem load_splits_at_last_dot (module_name class_name : string) :
  occurs "." class_name = false ->
  Apps.load_fully_qualified_definition import_module getattr
    (module_name ++ String "." class_name)%string
  = m ← import_module module_name; getattr m class_name.
Proof.
  intros H. unfold Apps.load_fully_qualified_definition.
  assert (Apps.rsplit1 "." (module_name ++ String "." class_name)%string
          = Some (module_name, class_name)) as ->; [|done].
  by apply rsplit1_Some.
Qed.

End Loading.

Lemma load_without_dot_witness :
  Apps.load_fully_qualified_definition MoreSamples.import_module MoreSamples.getattr
    "RequestsHttpConnection" = Raise ValueError.
Proof.
  apply (load_without_dot MoreSamples.import_module MoreSamples.getattr
           "RequestsHttpConnection").
  reflexivity.
Defined.

Lemma load_splits_at_last_dot_witness :
  Apps.load_fully_qualified_definition MoreSamples.import_module MoreSamples.getattr
    "elasticsearch.connection.RequestsHttpConnection"
  = Ok (Apps.PObject "RequestsHttpConnection").
Proof.
  pose proof (load_splits_at_last_dot MoreSamples.import_module MoreSamples.getattr
                "elasticsearch.connection" "RequestsHttpConnection" eq_refl) as H.
  vm_compute in H. vm_compute. exact H.
Defined.

(** ** Connection bootstrap, further *)

Section BootstrapMore.
Context {module definition : Type}.
Context (import_module : string -> result module).
Context (getattr : module -> string -> result (Apps.param definition)).

Abbreviation ready' := (Apps.ready import_module getattr).
Abbreviation load' := (Apps.load_fully_qualified_definition import_module getattr).

(** X3: with a host and a connection class configured, a class that cannot be
    loaded stops the bootstrap with the loader's error, before any connection
    is created; a class name without a dot does so with [ValueError]. *)
Theorem ready_unloadable_class (S : settings) (name : string) :
  Apps.setting_truthy (ELASTICSEARCH_LEARNERS_HOST S) = true ->
  ELASTICSEARCH_CONNECTION_CLASS S = Some name ->
  name <> EmptyString ->
  (forall e, load' name = Raise e -> ready' S = Raise e)
  /\ (occurs "." name = false -> ready' S = Raise ValueError).
Proof.
  intros Hhost Hclass Hname.
  assert (forall e, load' name = Raise e -> ready' S = Raise e) as Hraise.
  { intros e He. unfold Apps.ready. rewrite Hhost, Hclass.
    cbn [Apps.setting_truthy default from_option id].
    destruct (String.eqb_spec name EmptyString) as [->|_]; [done|].
    cbn [negb]. by rewrite He. }
  split; [exact Hraise|].
  intros Hdot. apply Hraise. unfold Apps.load_fully_qualified_definition.
  apply rsplit1_None in Hdot. by rewrite Hdot.
Qed.

(** X4: the parameters of a created connection, when the configured class loads:
    the class is passed as [connection_class] unless the loaded object is
    [None], and the host as the one element of [hosts]. *)
Theorem ready_with_class (S : settings) (host name : string)
    (c : Apps.param definition) :
  ELASTICSEARCH_LEARNERS_HOST S = Some host -> host <> EmptyString ->
  ELASTICSEARCH_CONNECTION_CLASS S = Some name -> name <> EmptyString ->
  load' name = Ok c ->
  exists params,
    ready' S = Ok [Apps.CreateConnection params]
    /\ params !! "hosts" = Some (Apps.PList [host])
    /\ params !! "connection_class" = (if Apps.param_is_none c then None else Some c).
Proof.
  intros Hhost Hh Hclass Hn Hload. unfold Apps.ready.
  rewrite Hhost, Hclass. cbn [Apps.setting_truthy default from_option id].
  destruct (String.eqb_spec host EmptyString) as [->|_]; [done|].
  destruct (String.eqb_spec name EmptyString) as [->|_]; [done|].
  cbn [negb]. rewrite Hload. cbn [mbind result_bind].
  eexists. split; [reflexivity|]. split.
  - apply map_lookup_filter_Some. split; [|done].
    rewrite !lookup_insert_ne by done. by rewrite lookup_singleton_eq.
  - destruct (Apps.param_is_none c) eqn:Hc.
    + apply map_lookup_filter_None. right. intros v Hv.
      do 3 (rewrite lookup_insert_ne in Hv by done).
      rewrite lookup_insert_eq in Hv. injection Hv as <-. cbn. by rewrite Hc.
    + apply map_lookup_filter_Some. split; [|done].
      do 3 (rewrite lookup_insert_ne by done). by rewrite lookup_insert_eq.
Qed.

(** X5: whatever is configured, one call creates at most one connection, and
    passes it no keyword other than the five the code names. *)
Theorem ready_keys (S : settings) (events : list (Apps.event definition)) :
  ready' S = Ok events ->
  (length events <= 1)%nat
  /\ forall params key,
       Apps.CreateConnection params ∈ events ->
       is_Some (params !! key) -> key ∈ connection_keys.
Proof.
  intros Hready. unfold Apps.ready in Hready.
  destruct (Apps.setting_truthy (ELASTICSEARCH_LEARNERS_HOST S)).
  - match type of Hready with
    | mbind _ ?b = _ => destruct b as [base|e] eqn:Hbase; [|discriminate Hready]
    end.
    cbn [mbind result_bind] in Hready. injection Hready as <-.
    split; [done|]. intros params key Hin [v Hv].
    apply list_elem_of_singleton in Hin. injection Hin as ->.
    apply map_lookup_filter_Some in Hv as [Hv _].
    unfold connection_keys.
    repeat (apply lookup_insert_Some in Hv as [[<- _]|[_ Hv]];
            [repeat constructor|]).
    destruct (Apps.setting_truthy (ELASTICSEARCH_CONNECTION_CLASS S)).
    + destruct (Apps.load_fully_qualified_definition _ _ _) as [c|e];
        [|discriminate Hbase].
      cbn [mbind result_bind] in Hbase. injection Hbase as <-.
      apply lookup_insert_Some in Hv as [[<- _]|[_ Hv]]; [repeat constructor|].
      apply lookup_singleton_Some in Hv as [<- _]. repeat constructor.
    + injection Hbase as <-.
      apply lookup_singleton_Some in Hv as [<- _]. repeat constructor.
  - injection Hready as <-. split; [cbn; lia|].
    intros params key Hin. by apply elem_of_nil in Hin.
Qed.

End BootstrapMore.

Lemma ready_unloadable_class_witness :
  Apps.ready MoreSamples.import_module MoreSamples.getattr
    (MoreSamples.settings_with_class "RequestsHttpConnection") = Raise ValueError.
Proof.
  destruct (ready_unloadable_class MoreSamples.import_module MoreSamples.getattr
              (MoreSamples.settings_with_class "RequestsHttpConnection")
              "RequestsHttpConnection") as [_ Hdot]; [reflexivity|reflexivity|discriminate|].
  apply Hdot. reflexivity.
Defined.

Lemma ready_with_class_witness :
  exists params,
    Apps.ready MoreSamples.import_module MoreSamples.getattr
      (MoreSamples.settings_with_class "elasticsearch.connection.RequestsHttpConnection")
    = Ok [Apps.CreateConnection params]
    /\ params !! "connection_class" = Some (Apps.PObject "RequestsHttpConnection").
Proof.
  destruct (ready_with_class MoreSamples.import_module MoreSamples.getattr
              (MoreSamples.settings_with_class
                 "elasticsearch.connection.RequestsHttpConnection")
              "localhost:9200" "elasticsearch.connection.RequestsHttpConnection"
              (Apps.PObject "RequestsHttpConnection"))
    as (params & Hready & _ & Hclass);
    [reflexivity|discriminate|reflexivity|discriminate|reflexivity|].
  exists params. split; [exact Hready|exact Hclass].
Defined.

Lemma ready_keys_witness :
  exists params,
    Apps.ready MoreSamples.import_module MoreSamples.getattr Samples.settings_
    = Ok [Apps.CreateConnection params]
    /\ forall key, is_Some (params !! key) -> key ∈ connection_keys.
Proof.
  assert (exists params,
            Apps.ready MoreSamples.import_module MoreSamples.getattr Samples.settings_
            = Ok [Apps.CreateConnection params]) as [params Hready].
  { eexists. vm_compute. reflexivity. }
  exists params. split; [exact Hready|]. intros key.
  apply (ready_keys MoreSamples.import_module MoreSamples.getattr Samples.settings_
           [Apps.CreateConnection params] Hready).
  constructor.
Defined.

(** ** The serializer loop, further *)

Section LoopMore.
Context (R : runtime) {I : Type}.
Implicit Types (fields : list (string * field I)) (instance : I).

(** When the loop returns, every field got through its body. *)
Lemma to_representation_field_ok fields instance out name f :
  to_representation R fields instance = Ok out ->
  (name, f) ∈ fields ->
  exists r, serialize_field R name f instance = Ok r.
Proof.
  intros Hout Hin.
  destruct (serialize_field R name f instance) as [r|e] eqn:Hf; [by eexists|].
  destruct (to_representation_raises R fields instance name f e Hin Hf) as [e' He'].
  rewrite He' in Hout. discriminate Hout.
Qed.

(** What is found under a field's name is what its body gave: its value, or
    nothing when the field was skipped. *)
Lemma to_representation_lookup fields instance out name f r :
  to_representation R fields instance = Ok out ->
  NoDup fields.*1 ->
  (name, f) ∈ fields ->
  serialize_field R name f instance = Ok r ->
  odict_get out name = r.
Proof.
  revert out. induction fields as [|[name' f'] fields IH]; intros out H Hnd Hin Hr.
  - by apply elem_of_nil in Hin.
  - rewrite to_representation_cons in H.
    apply NoDup_cons in Hnd as [Hfresh Hnd]. cbn [fst] in Hfresh.
    destruct (serialize_field R name' f' instance) as [r'|e] eqn:Hr'; [|done].
    destruct (to_representation R fields instance) as [ret|e] eqn:Hret; [|done].
    injection H as <-.
    apply elem_of_cons in Hin as [Heq|Hin].
    + injection Heq as -> ->. rewrite Hr in Hr'. injection Hr' as <-.
      destruct r as [v|].
      * cbn [odict_get]. by rewrite decide_True.
      * by eapply to_representation_keys.
    + assert (name' <> name) as Hne.
      { intros ->. apply Hfresh. apply list_elem_of_fmap. by exists (name, f). }
      specialize (IH ret eq_refl Hnd Hin Hr).
      destruct r' as [v'|]; [|done].
      cbn [odict_get]. by rewrite decide_False.
Qed.

(** The keys of the output are names of fields, in the order of the fields. *)
Lemma to_representation_sublist fields instance out :
  to_representation R fields instance = Ok out ->
  sublist out.*1 fields.*1.
Proof.
  revert out. induction fields as [|[name f] fields IH]; intros out H.
  - injection H as <-. constructor.
  - rewrite to_representation_cons in H.
    destruct (serialize_field R name f instance) as [r|e]; [|done].
    destruct (to_representation R fields instance) as [ret|e]; [|done].
    injection H as <-. specialize (IH ret eq_refl).
    destruct r as [v|]; cbn [fmap list_fmap fst].
    + by apply sublist_skip.
    + by apply sublist_cons.
Qed.

End LoopMore.

(** ** Activity type, further *)

Lemma lower_letter_not_upper (c : ascii) : is_upper (lower_letter c) = false.
Proof. by destruct c as [[] [] [] [] [] [] [] []]. Qed.

Lemma lower_letter_fixed (c : ascii) : is_upper c = false -> lower_letter c = c.
Proof. by destruct c as [[] [] [] [] [] [] [] []]. Qed.

Lemma lower_letter_ascii (c : ascii) :
  (nat_of_ascii c <? 128)%nat = true -> (nat_of_ascii (lower_letter c) <? 128)%nat = true.
Proof. by destruct c as [[] [] [] [] [] [] [] []]. Qed.

Lemma ascii_lower_no_upper (s : string) : no_upper (ascii_lower s) = true.
Proof.
  induction s as [|c s IH]; [done|].
  cbn [ascii_lower no_upper]. by rewrite lower_letter_not_upper, IH.
Qed.

Lemma ascii_lower_fixed (s : string) : no_upper s = true -> ascii_lower s = s.
Proof.
  induction s as [|c s IH]; [done|]. cbn [ascii_lower no_upper].
  intros H. apply andb_prop in H as [Hc Hs].
  apply negb_true_iff in Hc. by rewrite lower_letter_fixed, IH.
Qed.

Lemma ascii_lower_is_ascii (s : string) :
  is_ascii s = true -> is_ascii (ascii_lower s) = true.
Proof.
  induction s as [|c s IH]; [done|]. cbn [ascii_lower is_ascii].
  intros H. apply andb_prop in H as [Hc Hs].
  by rewrite lower_letter_ascii, IH.
Qed.

(** X6: whatever the row and the interpreter, a serialized activity type is a
    string and is never ["active"]; for a row whose activity type is ASCII
    text it is ASCII text without upper-case letters, and a second pass of
    the method leaves it as it is. *)
Theorem activity_type_output_invariants (R : runtime) (obj : object) (v : value) :
  CourseActivityByWeekSerializer.get_activity_type R obj = Ok v ->
  exists s t,
    attrs_of obj !! "activity_type" = Some (VStr s)
    /\ v = VStr t
    /\ t <> "active"
    /\ (is_ascii s = true ->
        is_ascii t = true
        /\ no_upper t = true
        /\ CourseActivityByWeekSerializer.rename_activity_type R t = t).
Proof.
  unfold CourseActivityByWeekSerializer.get_activity_type.
  destruct (attrs_of obj !! "activity_type") as [[]|]; try discriminate.
  intros [= <-]. eexists _, _. split; [reflexivity|]. split; [reflexivity|].
  rewrite (rename_activity_type_spec R s).
  destruct (decide (text_lower R s = "active")) as [Ha|Ha].
  - split; [discriminate|]. intros _. repeat split.
  - split; [exact Ha|]. intros Hs.
    rewrite (text_lower_ascii R s Hs) in *.
    split; [by apply ascii_lower_is_ascii|].
    split; [apply ascii_lower_no_upper|].
    rewrite rename_activity_type_spec.
    rewrite (text_lower_ascii R (ascii_lower s)) by by apply ascii_lower_is_ascii.
    rewrite (ascii_lower_fixed (ascii_lower s)) by apply ascii_lower_no_upper.
    by rewrite decide_False.
Qed.

Lemma activity_type_output_invariants_witness :
  exists t,
    CourseActivityByWeekSerializer.get_activity_type (Samples.runtime_ true)
      (Samples.activity_row "Played_Video") = Ok (VStr t)
    /\ t <> "active" /\ no_upper t = true.
Proof.
  destruct (activity_type_output_invariants (Samples.runtime_ true)
              (Samples.activity_row "Played_Video") (VStr "played_video"))
    as (s & t & Hs & Ht & Hne & Hascii).
  - reflexivity.
  - exists t. rewrite <- Ht. split; [reflexivity|]. split; [exact Hne|].
    apply Hascii. revert Hs. vm_compute. by intros [= <-].
Defined.

(** The method field of a row whose activity type cannot be read: the
    attribute lookup raises when the attribute is missing, [.lower()] when
    the value is [None] or another value that is not a string. *)
Lemma get_activity_type_raises (R : runtime) (obj : object) :
  match attrs_of obj !! "activity_type" with
  | Some (VStr _) => False
  | _ => True
  end ->
  CourseActivityByWeekSerializer.get_activity_type R obj =
  Raise (AttributeError (match attrs_of obj !! "activity_type" with
                         | None => "activity_type"
                         | Some _ => "lower"
                         end)).
Proof.
  unfold CourseActivityByWeekSerializer.get_activity_type.
  by destruct (attrs_of obj !! "activity_type") as [[]|].
Qed.

(** X7: a row whose activity type is missing, or is not a string, is not
    serialized at all: the serializer raises.  When the two columns before
    it render, the error is the one of the activity type: the missing
    attribute, or the missing [lower] of a value that is not a string. *)
Theorem activity_type_unreadable (R : runtime) (model : string -> attr_field)
    (obj : object) :
  match attrs_of obj !! "activity_type" with
  | Some (VStr _) => False
  | _ => True
  end ->
  (exists e,
     to_representation R (CourseActivityByWeekSerializer.fields R model) obj = Raise e)
  /\ (all_render R (model_fields model [] ["interval_start"; "interval_end"]) obj = true ->
      to_representation R (CourseActivityByWeekSerializer.fields R model) obj
      = Raise (AttributeError (match attrs_of obj !! "activity_type" with
                               | None => "activity_type"
                               | Some _ => "lower"
                               end))).
Proof.
  intros Hbad.
  pose proof (get_activity_type_raises R obj Hbad) as Hget.
  assert (serialize_field R "activity_type"
            (SerializerMethodField (CourseActivityByWeekSerializer.get_activity_type R))
            obj
          = Raise (AttributeError (match attrs_of obj !! "activity_type" with
                                   | None => "activity_type"
                                   | Some _ => "lower"
                                   end))) as Hfield.
  { unfold serialize_field. by rewrite Hget. }
  split.
  - eapply to_representation_raises; [|exact Hfield].
    rewrite CourseActivityByWeekSerializer_fields. repeat constructor.
  - intros Hcols. unfold all_render in Hcols.
    cbn [model_fields map forallb declared_field default fst snd] in Hcols.
    repeat (apply andb_prop in Hcols as [? Hcols]).
    rewrite CourseActivityByWeekSerializer_fields.
    rewrite !to_representation_cons.
    unfold succeeds in *.
    destruct (serialize_field R "interval_start" _ obj) as [r1|]; [|done].
    destruct (serialize_field R "interval_end" _ obj) as [r2|]; [|done].
    cbn [mbind result_bind]. by rewrite Hfield.
Qed.

Lemma activity_type_unreadable_witness :
  to_representation (Samples.runtime_ true)
    (CourseActivityByWeekSerializer.fields (Samples.runtime_ true) Samples.model_)
    MoreSamples.activity_row_without_type = Raise (AttributeError "lower")
  /\ succeeds
       (to_representation (Samples.runtime_ true)
          (CourseActivityByWeekSerializer.fields (Samples.runtime_ true) Samples.model_)
          (Samples.activity_row "Played_Video")) = true.
Proof.
  split.
  - apply (activity_type_unreadable (Samples.runtime_ true) Samples.model_
             MoreSamples.activity_row_without_type).
    + vm_compute. exact I.
    + vm_compute. reflexivity.
  - vm_compute. reflexivity.
Defined.

(** ** The table serializers *)

(** The field names of each table serializer are its [Meta.fields]. *)
Lemma table_serializers_names (R : runtime) (S : settings)
    (model : string -> attr_field) :
  (fun nfs => nfs.2.*1) <$> table_serializers R S model =
  [CourseActivityByWeekSerializer.Meta_fields;
   ProblemResponseAnswerDistributionSerializer.Meta_fields;
   ConsolidatedAnswerDistributionSerializer.Meta_fields;
   ProblemFirstLastResponseAnswerDistributionSerializer.Meta_fields;
   ConsolidatedFirstLastAnswerDistributionSerializer.Meta_fields;
   GradeDistributionSerializer.Meta_fields;
   SequentialOpenDistributionSerializer.Meta_fields;
   CourseEnrollmentDailySerializer.Meta_fields;
   CourseEnrollmentByGenderSerializer.Meta_fields;
   CourseEnrollmentByEducationSerializer.Meta_fields;
   CourseEnrollmentByBirthYearSerializer.Meta_fields;
   CourseActivityWeeklySerializer.Meta_fields;
   VideoSerializer.Meta_fields;
   VideoTimelineSerializer.Meta_fields].
Proof. reflexivity. Qed.

Lemma table_serializers_names_ok (R : runtime) (S : settings)
    (model : string -> attr_field)
    (name : string) (fs : list (string * field object)) :
  (name, fs) ∈ table_serializers R S model ->
  ("id" ∉ fs.*1) /\ NoDup fs.*1.
Proof.
  intros Hin.
  assert (fs.*1 ∈ (fun nfs => nfs.2.*1) <$> table_serializers R S model) as Hnames.
  { apply list_elem_of_fmap. by exists (name, fs). }
  rewrite table_serializers_names in Hnames.
  revert Hnames. generalize (fs.*1). intros names Hnames.
  assert (Forall (fun names => ("id" ∉ names) /\ NoDup names)
            [CourseActivityByWeekSerializer.Meta_fields;
             ProblemResponseAnswerDistributionSerializer.Meta_fields;
             ConsolidatedAnswerDistributionSerializer.Meta_fields;
             ProblemFirstLastResponseAnswerDistributionSerializer.Meta_fields;
             ConsolidatedFirstLastAnswerDistributionSerializer.Meta_fields;
             GradeDistributionSerializer.Meta_fields;
             SequentialOpenDistributionSerializer.Meta_fields;
             CourseEnrollmentDailySerializer.Meta_fields;
             CourseEnrollmentByGenderSerializer.Meta_fields;
             CourseEnrollmentByEducationSerializer.Meta_fields;
             CourseEnrollmentByBirthYearSerializer.Meta_fields;
             CourseActivityWeeklySerializer.Meta_fields;
             VideoSerializer.Meta_fields;
             VideoTimelineSerializer.Meta_fields]) as Hall.
  { by apply (bool_decide_unpack _). }
  rewrite Forall_forall in Hall. by apply Hall.
Qed.

(** X8: no table serializer ever exposes the record id: whatever the model object
    holds, an output has no [id] key, and its keys are fields of [Meta.fields],
    each once, in that order. *)
Theorem table_serializers_hide_id (R : runtime) (S : settings)
    (model : string -> attr_field) (name : string)
    (fs : list (string * field object)) (obj : object) (out : list (string * value)) :
  (name, fs) ∈ table_serializers R S model ->
  to_representation R fs obj = Ok out ->
  odict_get out "id" = None /\ sublist out.*1 fs.*1 /\ NoDup out.*1.
Proof.
  intros Hin Hout.
  destruct (table_serializers_names_ok R S model name fs Hin) as [Hid Hnd].
  pose proof (to_representation_sublist R fs obj out Hout) as Hsub.
  split; [by eapply to_representation_keys|]. split; [exact Hsub|].
  by eapply sublist_NoDup.
Qed.

Lemma table_serializers_hide_id_witness :
  exists out,
    to_representation (Samples.runtime_ true)
      (ConsolidatedAnswerDistributionSerializer.fields Samples.settings_ Samples.model_)
      MoreSamples.distribution_row_with_id = Ok out
    /\ odict_get out "id" = None.
Proof.
  assert (exists out,
            to_representation (Samples.runtime_ true)
              (ConsolidatedAnswerDistributionSerializer.fields Samples.settings_
                 Samples.model_)
              MoreSamples.distribution_row_with_id = Ok out)
    as [out Hout].
  { eexists. vm_compute. reflexivity. }
  exists out. split; [exact Hout|].
  apply (table_serializers_hide_id (Samples.runtime_ true) Samples.settings_
           Samples.model_ "ConsolidatedAnswerDistributionSerializer"
           (ConsolidatedAnswerDistributionSerializer.fields Samples.settings_
              Samples.model_)
           MoreSamples.distribution_row_with_id out);
    [|exact Hout].
  do 2 constructor. constructor.
Defined.

(** Wherever a table serializer lists [created], the field is the declared
    one, with the format of the settings, not the one of the model's column. *)
Lemma table_serializers_created (R : runtime) (S : settings)
    (model : string -> attr_field)
    (name : string) (fs : list (string * field object)) :
  (name, fs) ∈ table_serializers R S model ->
  "created" ∈ fs.*1 ->
  ("created", Field (declare (DateTimeField (DATETIME_FORMAT S)))) ∈ fs.
Proof.
  intros Hin Hcreated.
  unfold table_serializers, CourseActivityByWeekSerializer.fields,
    ProblemResponseAnswerDistributionSerializer.fields,
    ConsolidatedAnswerDistributionSerializer.fields,
    ProblemFirstLastResponseAnswerDistributionSerializer.fields,
    ConsolidatedFirstLastAnswerDistributionSerializer.fields,
    GradeDistributionSerializer.fields, SequentialOpenDistributionSerializer.fields,
    CourseEnrollmentDailySerializer.fields, CourseEnrollmentByGenderSerializer.fields,
    CourseEnrollmentByEducationSerializer.fields,
    CourseEnrollmentByBirthYearSerializer.fields,
    CourseActivityWeeklySerializer.fields, VideoSerializer.fields,
    VideoTimelineSerializer.fields in Hin.
  repeat (apply elem_of_cons in Hin as [Hin|Hin]);
    [apply (f_equal snd) in Hin; cbn [snd] in Hin; subst fs..
    |by apply elem_of_nil in Hin];
    rewrite model_fields_names in Hcreated;
    first
      [ exfalso; revert Hcreated; by apply (bool_decide_unpack _)
      | lazymatch goal with
        | |- _ ∈ model_fields ?m ?d ?mf => exact (model_fields_lookup m d mf "created" Hcreated)
        end ].
Qed.

(** X9: in every table serializer that has it, [created] is the object's
    datetime in the date-time format of the settings. *)
Theorem created_uses_datetime_format (R : runtime) (S : settings)
    (model : string -> attr_field) (name : string)
    (fs : list (string * field object)) (obj : object) (c : datetime)
    (out : list (string * value)) :
  (name, fs) ∈ table_serializers R S model ->
  "created" ∈ fs.*1 ->
  attrs_of obj !! "created" = Some (VDateTime c) ->
  to_representation R fs obj = Ok out ->
  odict_get out "created" = Some (VStr (strftime R (DATETIME_FORMAT S) c)).
Proof.
  intros Hin Hcreated Hc Hout.
  destruct (table_serializers_names_ok R S model name fs Hin) as [_ Hnd].
  eapply to_representation_get;
    [exact Hout|exact Hnd|by eapply table_serializers_created|].
  unfold serialize_field, get_attribute, attr, object_attrs.
  cbn [source declare default from_option id field_kind]. by rewrite Hc.
Qed.

Lemma created_uses_datetime_format_witness :
  exists out,
    to_representation (Samples.runtime_ false)
      (VideoTimelineSerializer.fields Samples.settings_ Samples.model_)
      MoreSamples.timeline_row = Ok out
    /\ odict_get out "created" = Some (VStr "%Y-%m-%dT%H%M%S").
Proof.
  assert (exists out,
            to_representation (Samples.runtime_ false)
              (VideoTimelineSerializer.fields Samples.settings_ Samples.model_)
              MoreSamples.timeline_row = Ok out) as [out Hout].
  { eexists. vm_compute. reflexivity. }
  exists out. split; [exact Hout|].
  apply (created_uses_datetime_format (Samples.runtime_ false) Samples.settings_
           Samples.model_ "VideoTimelineSerializer"
           (VideoTimelineSerializer.fields Samples.settings_ Samples.model_)
           MoreSamples.timeline_row Samples.ts out);
    [|by apply (bool_decide_unpack _)|reflexivity|exact Hout].
  do 13 constructor. constructor.
Defined.

(** ** Weekly activity *)

Lemma CourseActivityWeeklySerializer_fields (S : settings)
    (model : string -> attr_field) :
  CourseActivityWeeklySerializer.fields S model =
  [("interval_start", Field (declare (DateTimeField (DATETIME_FORMAT S))));
   ("interval_end", Field (declare (DateTimeField (DATETIME_FORMAT S))));
   ("course_id", Field (model "course_id"));
   ("any", Field (declare_optional IntegerField));
   ("attempted_problem", Field (declare_optional IntegerField));
   ("played_video", Field (declare_optional IntegerField));
   ("created", Field (declare (DateTimeField (DATETIME_FORMAT S))))].
Proof. reflexivity. Qed.

(** An optional counter read from a model object: left out when the object
    has no such attribute, under either release behaviour. *)
Lemma optional_counter_field (R : runtime) (obj : object) (name : string) :
  serialize_field R name (Field (declare_optional IntegerField)) obj =
  match attrs_of obj !! name with
  | None => Ok None
  | Some VNone => Ok (Some VNone)
  | Some (VInt n) => Ok (Some (VInt n))
  | Some v => r ← coerce R IntegerField v; Ok (Some r)
  end.
Proof.
  unfold serialize_field, get_attribute, attr, object_attrs.
  cbn [source declare_optional default from_option id default_value required field_kind].
  destruct (attrs_of obj !! name) as [[]|]; try reflexivity.
  by destruct (default_on_output R).
Qed.

(** X10: the three activity counters of the weekly serializer are optional: a
    counter the object does not have is left out of the output (it is not
    reported as 0 or null), one it has is passed on; and no output has the
    disabled [posted_forum]. *)
Theorem weekly_optional_counters (R : runtime) (S : settings)
    (model : string -> attr_field) (obj : object) (out : list (string * value))
    (name : string) :
  name ∈ ["any"; "attempted_problem"; "played_video"] ->
  to_representation R (CourseActivityWeeklySerializer.fields S model) obj = Ok out ->
  (attrs_of obj !! name = None -> odict_get out name = None)
  /\ (attrs_of obj !! name = Some VNone -> odict_get out name = Some VNone)
  /\ (forall n, attrs_of obj !! name = Some (VInt n) -> odict_get out name = Some (VInt n))
  /\ odict_get out "posted_forum" = None.
Proof.
  intros Hname Hout.
  assert (forall r,
            serialize_field R name (Field (declare_optional IntegerField)) obj = Ok r ->
            odict_get out name = r) as Hlookup.
  { intros r Hr. eapply to_representation_lookup; [exact Hout| | |exact Hr].
    - rewrite CourseActivityWeeklySerializer_fields. cbn [fmap list_fmap fst].
      by apply (bool_decide_unpack _).
    - rewrite CourseActivityWeeklySerializer_fields.
      repeat (apply elem_of_cons in Hname as [->|Hname]);
        [..|by apply elem_of_nil in Hname]; repeat constructor. }
  rewrite optional_counter_field in Hlookup.
  repeat split.
  - intros H. rewrite H in Hlookup. by apply Hlookup.
  - intros H. rewrite H in Hlookup. by apply Hlookup.
  - intros n H. rewrite H in Hlookup. by apply Hlookup.
  - eapply to_representation_keys; [exact Hout|].
    rewrite CourseActivityWeeklySerializer_fields. cbn [fmap list_fmap fst].
    by apply (bool_decide_unpack _).
Qed.

Lemma weekly_optional_counters_witness :
  exists out,
    to_representation (Samples.runtime_ true)
      (CourseActivityWeeklySerializer.fields Samples.settings_ Samples.model_)
      MoreSamples.weekly_row = Ok out
    /\ odict_get out "played_video" = None
    /\ odict_get out "any" = Some (VInt 40).
Proof.
  assert (exists out,
            to_representation (Samples.runtime_ true)
              (CourseActivityWeeklySerializer.fields Samples.settings_ Samples.model_)
              MoreSamples.weekly_row = Ok out) as [out Hout].
  { eexists. vm_compute. reflexivity. }
  exists out. split; [exact Hout|]. split.
  - apply (weekly_optional_counters (Samples.runtime_ true) Samples.settings_
             Samples.model_ MoreSamples.weekly_row out "played_video");
      [repeat constructor|exact Hout|reflexivity].
  - apply (weekly_optional_counters (Samples.runtime_ true) Samples.settings_
             Samples.model_ MoreSamples.weekly_row out "any");
      [repeat constructor|exact Hout|reflexivity].
Defined.

(** ** Enrollment by gender *)

Lemma CourseEnrollmentByGenderSerializer_fields (S : settings)
    (model : string -> attr_field) :
  CourseEnrollmentByGenderSerializer.fields S model =
  [("course_id", Field (model "course_id"));
   ("date", Field (declare (DateField (DATE_FORMAT S))));
   ("female", Field (declare_default IntegerField (VInt 0)));
   ("male", Field (declare_default IntegerField (VInt 0)));
   ("other", Field (declare_default IntegerField (VInt 0)));
   ("unknown", Field (declare_default IntegerField (VInt 0)));
   ("created", Field (declare (DateTimeField (DATETIME_FORMAT S))))].
Proof. reflexivity. Qed.

(** A counter declared with [default=0], read from a model object. *)
Lemma defaulted_counter_field (R : runtime) (obj : object) (name : string) :
  serialize_field R name (Field (declare_default IntegerField (VInt 0))) obj =
  match attrs_of obj !! name with
  | None => if default_on_output R then Ok (Some (VInt 0))
            else Raise (AttributeError name)
  | Some VNone => Ok (Some VNone)
  | Some (VInt n) => Ok (Some (VInt n))
  | Some v => r ← coerce R IntegerField v; Ok (Some r)
  end.
Proof.
  unfold serialize_field, get_attribute, attr, object_attrs.
  cbn [source declare_default default from_option id default_value required field_kind].
  destruct (attrs_of obj !! name) as [[]|]; try reflexivity.
  by destruct (default_on_output R).
Qed.

(** X11: the gender counters are declared with a default of 0, which stands in for
    a missing attribute only: a counter that is [None] on the object is
    output as [None], an integer as itself; a missing one gives 0 where the
    release falls back on defaults on output, and makes the serializer raise
    where it does not. *)
Theorem gender_counters (R : runtime) (S : settings) (model : string -> attr_field)
    (obj : object) (name : string) :
  name ∈ ["female"; "male"; "other"; "unknown"] ->
  (forall out,
     to_representation R (CourseEnrollmentByGenderSerializer.fields S model) obj = Ok out ->
     (attrs_of obj !! name = Some VNone -> odict_get out name = Some VNone)
     /\ (forall n, attrs_of obj !! name = Some (VInt n) ->
                   odict_get out name = Some (VInt n))
     /\ (attrs_of obj !! name = None -> odict_get out name = Some (VInt 0)))
  /\ (attrs_of obj !! name = None -> default_on_output R = false ->
      exists e,
        to_representation R (CourseEnrollmentByGenderSerializer.fields S model) obj
        = Raise e).
Proof.
  intros Hname.
  assert ((name, Field (declare_default IntegerField (VInt 0)))
          ∈ CourseEnrollmentByGenderSerializer.fields S model) as Hin.
  { rewrite CourseEnrollmentByGenderSerializer_fields.
    repeat (apply elem_of_cons in Hname as [->|Hname]);
      [..|by apply elem_of_nil in Hname]; repeat constructor. }
  pose proof (defaulted_counter_field R obj name) as Hfield.
  split.
  - intros out Hout.
    assert (forall r,
              serialize_field R name (Field (declare_default IntegerField (VInt 0))) obj
              = Ok r -> odict_get out name = r) as Hlookup.
    { intros r Hr. eapply to_representation_lookup; [exact Hout| |exact Hin|exact Hr].
      rewrite CourseEnrollmentByGenderSerializer_fields. cbn [fmap list_fmap fst].
      by apply (bool_decide_unpack _). }
    destruct (to_representation_field_ok R _ obj out name _ Hout Hin) as [r Hr].
    rewrite Hfield in Hlookup, Hr.
    repeat split.
    + intros H. rewrite H in Hlookup. by apply Hlookup.
    + intros n H. rewrite H in Hlookup. by apply Hlookup.
    + intros H. rewrite H in Hlookup, Hr.
      destruct (default_on_output R); [by apply Hlookup|discriminate Hr].
  - intros Hmissing Hrelease. rewrite Hmissing, Hrelease in Hfield.
    by eapply to_representation_raises.
Qed.

Lemma gender_counters_witness :
  exists out,
    to_representation (Samples.runtime_ true)
      (CourseEnrollmentByGenderSerializer.fields Samples.settings_ Samples.model_)
      MoreSamples.gender_row = Ok out
    /\ odict_get out "male" = Some VNone
    /\ odict_get out "other" = Some (VInt 0).
Proof.
  assert (exists out,
            to_representation (Samples.runtime_ true)
              (CourseEnrollmentByGenderSerializer.fields Samples.settings_ Samples.model_)
              MoreSamples.gender_row = Ok out) as [out Hout].
  { eexists. vm_compute. reflexivity. }
  exists out. split; [exact Hout|]. split.
  - destruct (gender_counters (Samples.runtime_ true) Samples.settings_ Samples.model_
                MoreSamples.gender_row "male") as [H _]; [repeat constructor|].
    destruct (H out Hout) as (Hnone & _). by apply Hnone.
  - destruct (gender_counters (Samples.runtime_ true) Samples.settings_ Samples.model_
                MoreSamples.gender_row "other") as [H _]; [repeat constructor|].
    destruct (H out Hout) as (_ & Hint & _). by apply Hint.
Defined.

(** ** Last update *)

(** X12: the one field of the last-updated serializer is named [last_updated] but
    reads the object's [date]: a date is rendered in the date format, [None]
    stays [None], and an object without a [date] attribute is refused even if
    it has a [last_updated] one. *)
Theorem last_updated_reads_date (R : runtime) (S : settings) (obj : object) :
  (forall d, attrs_of obj !! "date" = Some (VDate d) ->
     to_representation R (LastUpdatedSerializer S) obj
     = Ok [("last_updated", VStr (strftime_date R (DATE_FORMAT S) d))])
  /\ (attrs_of obj !! "date" = Some VNone ->
      to_representation R (LastUpdatedSerializer S) obj = Ok [("last_updated", VNone)])
  /\ (attrs_of obj !! "date" = None ->
      to_representation R (LastUpdatedSerializer S) obj = Raise (AttributeError "date")).
Proof.
  unfold LastUpdatedSerializer. rewrite to_representation_cons.
  unfold serialize_field, get_attribute, attr, object_attrs.
  cbn [source declare_source default from_option id default_value required field_kind].
  repeat split.
  - by intros d ->.
  - by intros ->.
  - intros ->. by destruct (default_on_output R).
Qed.

Lemma last_updated_reads_date_witness :
  to_representation (Samples.runtime_ false) (LastUpdatedSerializer Samples.settings_)
    (Object {["last_updated" := VDate (Date 2016 1 2)]})
  = Raise (AttributeError "date").
Proof.
  apply (last_updated_reads_date (Samples.runtime_ false) Samples.settings_
           (Object {["last_updated" := VDate (Date 2016 1 2)]})).
  reflexivity.
Defined.

(** ** Engagement by day *)

(** X13: a day of engagement with a date is always serialized, with the four
    counters after the date: a counter is the row's own value when the row has
    the key, even when that value is [None], and 0 only when the key is
    missing. *)
Theorem engagement_day_counters (R : runtime) (S : settings) (obj : dict) (d : date) :
  obj !! "date" = Some (VDate d) ->
  exists out,
    to_representation R (EngagementDaySerializer.fields S) obj = Ok out
    /\ out.*1 = ["date"; "problems_attempted"; "problems_completed";
                "discussion_contributions"; "videos_viewed"]
    /\ odict_get out "date" = Some (VStr (strftime_date R (DATE_FORMAT S) d))
    /\ forall key,
         key ∈ ["problems_attempted"; "problems_completed";
                "discussion_contributions"; "videos_viewed"] ->
         (forall v, obj !! key = Some v -> odict_get out key = Some v)
         /\ (obj !! key = None -> odict_get out key = Some (VInt 0)).
Proof.
  intros Hdate.
  exists [("date", VStr (strftime_date R (DATE_FORMAT S) d));
          ("problems_attempted", dict_get obj "problems_attempted" (VInt 0));
          ("problems_completed", dict_get obj "problems_completed" (VInt 0));
          ("discussion_contributions", dict_get obj "discussion_contributions" (VInt 0));
          ("videos_viewed", dict_get obj "videos_viewed" (VInt 0))].
  split.
  - unfold EngagementDaySerializer.fields. rewrite !to_representation_cons.
    unfold serialize_field, get_attribute, attr, dict_attrs.
    cbn [source declare default from_option id field_kind]. rewrite Hdate.
    reflexivity.
  - split; [reflexivity|]. split; [reflexivity|].
    intros key Hkey.
    repeat (apply elem_of_cons in Hkey as [->|Hkey]); [..|by apply elem_of_nil in Hkey];
      (split; [intros v Hv|intros Hv]; cbn; unfold dict_get; by rewrite Hv).
Qed.

Lemma engagement_day_counters_witness :
  exists out,
    to_representation (Samples.runtime_ false) (EngagementDaySerializer.fields Samples.settings_)
      MoreSamples.engagement_day = Ok out
    /\ odict_get out "videos_viewed" = Some VNone
    /\ odict_get out "problems_completed" = Some (VInt 0).
Proof.
  destruct (engagement_day_counters (Samples.runtime_ false) Samples.settings_
              MoreSamples.engagement_day (Date 2016 1 2))
    as (out & Hout & _ & _ & Hkeys); [reflexivity|].
  exists out. split; [exact Hout|]. split.
  - apply (Hkeys "videos_viewed"); [repeat constructor|reflexivity].
  - apply (Hkeys "problems_completed"); [repeat constructor|reflexivity].
Defined.

(** ** Problems and tags *)

(** X14: the serializer of problems and tags, on a row with module_id and
    created whose counters are integers or [None] (or absent, on a release
    with the fallback): with its tags the row gives the five fields in the
    declared order, a null counter staying null; a row without tags, such as
    a row of the problem serializer, is refused with [KeyError]. *)
Theorem problems_and_tags_output (R : runtime) (S : settings) (row : dict)
    (m : string) (c : datetime) :
  row !! "module_id" = Some (VStr m) ->
  row !! "created" = Some (VDateTime c) ->
  numeric_input R (row !! "total_submissions") = true ->
  numeric_input R (row !! "correct_submissions") = true ->
  (forall t, row !! "tags" = Some (VStr t) ->
     to_representation R (ProblemsAndTagsSerializer S) row =
     Ok [("module_id", VStr m);
         ("total_submissions", default (VInt 0) (row !! "total_submissions"));
         ("correct_submissions", default (VInt 0) (row !! "correct_submissions"));
         ("tags", VStr t);
         ("created", VStr (strftime R (DATETIME_FORMAT S) c))])
  /\ (row !! "tags" = None ->
      to_representation R (ProblemsAndTagsSerializer S) row = Raise (KeyError "tags")).
Proof.
  intros Hm Hc Ht Hk.
  assert (forall name, numeric_input R (row !! name) = true ->
            serialize_field R name (Field (declare_default IntegerField (VInt 0))) row
            = Ok (Some (default (VInt 0) (row !! name)))) as Hnum.
  { intros name Hname. rewrite numeric_field. unfold numeric_input in Hname.
    destruct (row !! name) as [[]|]; try discriminate; try reflexivity.
    by rewrite Hname. }
  unfold ProblemsAndTagsSerializer. rewrite !to_representation_cons.
  rewrite !Hnum by done.
  unfold serialize_field, get_attribute, attr, dict_attrs.
  cbn [source declare default default_value required field_kind].
  rewrite Hm, Hc.
  split.
  - intros t ->. reflexivity.
  - intros ->. by destruct (default_on_output R).
Qed.

Lemma problems_and_tags_output_witness :
  to_representation (Samples.runtime_ false) (ProblemsAndTagsSerializer Samples.settings_)
    MoreSamples.tagged_row
  = Ok [("module_id", VStr "m1"); ("total_submissions", VNone);
        ("correct_submissions", VInt 3); ("tags", VStr "difficulty");
        ("created", VStr "%Y-%m-%dT%H%M%S")]
  /\ to_representation (Samples.runtime_ false)
       (ProblemsAndTagsSerializer Samples.settings_) Samples.problem_row
     = Raise (KeyError "tags").
Proof.
  split.
  - destruct (problems_and_tags_output (Samples.runtime_ false) Samples.settings_
                MoreSamples.tagged_row "m1" Samples.ts) as [Hok _]; [reflexivity..|].
    apply (Hok "difficulty"). reflexivity.
  - destruct (problems_and_tags_output (Samples.runtime_ false) Samples.settings_
                Samples.problem_row "m1" Samples.ts) as [_ Hrefused]; [reflexivity..|].
    apply Hrefused. reflexivity.
Defined.

(** ** Learners, further *)

(** X15: the cohort hook never lets an empty value through: its result is [None]
    or a truthy value, which is then the input itself; so an empty string
    becomes [None], and a second pass changes nothing. *)
Theorem transform_cohort_never_empty (v : value) :
  (transform_cohort v = VNone \/ (truthy v = true /\ transform_cohort v = v))
  /\ transform_cohort v <> VStr EmptyString
  /\ transform_cohort (transform_cohort v) = transform_cohort v.
Proof.
  unfold transform_cohort. destruct (truthy v) eqn:Hv.
  - rewrite Hv. repeat split; [by right|].
    intros ->. discriminate Hv.
  - by repeat split; [left|..].
Qed.

(** X16: the segments hook always gives something to iterate over: its result is
    never [None], and is the empty list for every falsy input. *)
Theorem transform_segments_never_none (v : value) :
  transform_segments v <> VNone
  /\ (truthy v = false -> transform_segments v = VList [])
  /\ (truthy v = true -> transform_segments v = v).
Proof.
  unfold transform_segments. destruct (truthy v) eqn:Hv; repeat split; try done.
  intros ->. discriminate Hv.
Qed.

Lemma transform_segments_never_none_witness :
  transform_segments (VStr EmptyString) = VList []
  /\ transform_segments (VList [VStr "highly_engaged"]) = VList [VStr "highly_engaged"].
Proof.
  split.
  - apply (transform_segments_never_none (VStr EmptyString)). reflexivity.
  - apply (transform_segments_never_none (VList [VStr "highly_engaged"])). reflexivity.
Defined.

(** X17: the engagements of a learner have the five keys of the code and no other,
    whatever attributes the learner has, and the four counters are never
    [None]. *)
Theorem engagements_keys (obj : object) :
  dom (LearnerSerializer.get_engagements obj)
  = list_to_set ["discussion_contributions"; "problems_attempted"; "problems_completed";
                 "videos_viewed"; "problem_attempts_per_completed"]
  /\ forall name,
       name ∈ ["discussion_contributions"; "problems_attempted";
               "problems_completed"; "videos_viewed"] ->
       LearnerSerializer.get_engagements obj !! name <> Some VNone
       /\ is_Some (LearnerSerializer.get_engagements obj !! name).
Proof.
  split.
  - unfold LearnerSerializer.get_engagements. cbn [foldl list_to_set].
    rewrite !dom_insert_L, dom_empty_L. set_solver.
  - intros name Hname.
    assert (LearnerSerializer.get_engagements obj !! name
            = Some (default_if_none (getattr_default obj name VNone) (VInt 0))) as ->.
    { unfold LearnerSerializer.get_engagements. cbn [foldl].
      repeat (apply elem_of_cons in Hname as [->|Hname]);
        [..|by apply elem_of_nil in Hname]; by simplify_map_eq. }
    split; [|by eexists].
    unfold default_if_none, getattr_default.
    by destruct (attrs_of obj !! name) as [[]|].
Qed.

Lemma engagements_keys_witness :
  LearnerSerializer.get_engagements Samples.learner !! "problems_attempted" <> Some VNone
  /\ LearnerSerializer.get_engagements Samples.learner !! "email" = None.
Proof.
  destruct (engagements_keys Samples.learner) as [Hdom Hcounters]. split.
  - apply (Hcounters "problems_attempted"). repeat constructor.
  - apply not_elem_of_dom. rewrite Hdom. by apply (bool_decide_unpack _).
Defined.

(** ** Restoring consolidated distributions *)

(** X18: [restore_object] of both consolidated serializers takes the flag out of
    the caller's attributes before anything else.  On a 3.x release, where
    no inherited method is found, the call then raises [AttributeError] and
    the attributes are left without the flag.  With the inherited method of
    a 2.x release, the method is given the attributes without the flag; its
    error is passed on, and the object it returns gets the flag of the
    attributes, [None] when they have none, even if the method set one of
    its own, every other attribute being as the method left it.  The two
    classes' methods do the same. *)
Theorem restore_object_moves_flag
    (inherited : option (dict -> option object -> dict * result object))
    (attrs : dict) (instance : option object) :
  let popped := delete "consolidated_variant" attrs in
  let restored :=
    ConsolidatedAnswerDistributionSerializer.restore_object inherited attrs instance in
  popped !! "consolidated_variant" = None
  /\ (inherited = None ->
      restored = (popped, Raise (AttributeError "restore_object")))
  /\ (forall super_restore_object, inherited = Some super_restore_object ->
      restored.1 = (super_restore_object popped instance).1
      /\ (forall e, (super_restore_object popped instance).2 = Raise e ->
            restored.2 = Raise e)
      /\ (forall distribution,
            (super_restore_object popped instance).2 = Ok distribution ->
            exists o,
              restored.2 = Ok o
              /\ attrs_of o !! "consolidated_variant"
                 = Some (default VNone (attrs !! "consolidated_variant"))
              /\ forall name, name <> "consolidated_variant" ->
                   attrs_of o !! name = attrs_of distribution !! name))
  /\ ConsolidatedFirstLastAnswerDistributionSerializer.restore_object
       inherited attrs instance = restored.
Proof.
  cbn zeta. split; [apply lookup_delete_eq|].
  split; [by intros ->|]. split; [|reflexivity].
  intros super_restore_object ->.
  unfold ConsolidatedAnswerDistributionSerializer.restore_object.
  destruct (super_restore_object (delete "consolidated_variant" attrs) instance)
    as [attrs' r].
  cbn [fst snd]. split; [reflexivity|]. split.
  - by intros e ->.
  - intros distribution ->. eexists. split; [reflexivity|]. cbn [attrs_of]. split.
    + rewrite lookup_insert_eq. unfold dict_get.
      by destruct (attrs !! "consolidated_variant").
    + intros name Hname. by rewrite lookup_insert_ne.
Qed.

Lemma restore_object_moves_flag_witness :
  ConsolidatedAnswerDistributionSerializer.restore_object None
    MoreSamples.restore_attrs None
  = ({["count" := VInt 3]}, Raise (AttributeError "restore_object"))
  /\ exists o,
       (ConsolidatedAnswerDistributionSerializer.restore_object
          (Some MoreSamples.super_restore_object) MoreSamples.restore_attrs None).2 = Ok o
       /\ attrs_of o !! "consolidated_variant" = Some (VBool true)
       /\ attrs_of o !! "count" = Some (VInt 3).
Proof.
  split.
  - destruct (restore_object_moves_flag None MoreSamples.restore_attrs None)
      as (_ & Hnone & _).
    rewrite (Hnone eq_refl). vm_compute. reflexivity.
  - destruct (restore_object_moves_flag (Some MoreSamples.super_restore_object)
                MoreSamples.restore_attrs None) as (_ & _ & Hsome & _).
    destruct (Hsome MoreSamples.super_restore_object eq_refl) as (_ & _ & Hok).
    destruct (Hok (Object (<["consolidated_variant" := VBool false]>
                            (delete "consolidated_variant" MoreSamples.restore_attrs)))
                eq_refl) as (o & Ho & Hflag & Hother).
    exists o. split; [exact Ho|]. split; [exact Hflag|].
    rewrite Hother by discriminate. vm_compute. reflexivity.
Defined.

(** ** Engagement ranges, further *)

(** X19: the serializer of one metric needs the three ranges of its dict: with
    all three it gives the three buckets in the order below_average, average,
    above_average; with one of them missing it raises [KeyError]. *)
Theorem range_metric_three_keys (R : runtime) (obj : gmap string (option range_row)) :
  (forall low normal high,
     obj !! "low_range" = Some low -> obj !! "normal_range" = Some normal ->
     obj !! "high_range" = Some high ->
     to_representation R EnagementRangeMetricSerializer.fields obj
     = Ok [("below_average", EnagementRangeMetricSerializer._transform_range low);
           ("average", EnagementRangeMetricSerializer._transform_range normal);
           ("above_average", EnagementRangeMetricSerializer._transform_range high)])
  /\ (forall key, key ∈ ["low_range"; "normal_range"; "high_range"] ->
        obj !! key = None ->
        exists missing,
          to_representation R EnagementRangeMetricSerializer.fields obj
          = Raise (KeyError missing)
          /\ obj !! missing = None).
Proof.
  unfold EnagementRangeMetricSerializer.fields. rewrite !to_representation_cons.
  unfold serialize_field, EnagementRangeMetricSerializer.get_below_average_range,
    EnagementRangeMetricSerializer.get_average_range,
    EnagementRangeMetricSerializer.get_above_average_range,
    EnagementRangeMetricSerializer.getitem.
  split.
  - by intros low normal high -> -> ->.
  - intros key Hkey Hmissing.
    destruct (obj !! "low_range") as [low|] eqn:Hlow; [|by exists "low_range"].
    destruct (obj !! "normal_range") as [normal|] eqn:Hnormal;
      [|by exists "normal_range"].
    destruct (obj !! "high_range") as [high|] eqn:Hhigh; [|by exists "high_range"].
    repeat (apply elem_of_cons in Hkey as [->|Hkey]); [..|by apply elem_of_nil in Hkey];
      congruence.
Qed.

Lemma range_metric_three_keys_witness :
  exists missing,
    to_representation (Samples.runtime_ true) EnagementRangeMetricSerializer.fields
      (<["low_range" := None]> (<["high_range" := None]> ∅))
    = Raise (KeyError missing).
Proof.
  destruct (range_metric_three_keys (Samples.runtime_ true)
              (<["low_range" := None]> (<["high_range" := None]> ∅)))
    as [_ Hmissing].
  destruct (Hmissing "normal_range") as (missing & Hraise & _);
    [repeat constructor|reflexivity|].
  by exists missing.
Defined.

Import CourseLearnerMetadataSerializer.

(** The keys after the loop over the metrics: those before it and the
    metrics. *)
Lemma for_metrics_keys (R : runtime) (events : list string)
    (query_set : list range_row) (acc out : gmap string (list (string * value))) :
  for_metrics R events query_set acc = Ok out ->
  dom out = dom acc ∪ list_to_set events.
Proof.
  revert acc. induction events as [|m events IH]; intros acc Hout.
  - injection Hout as <-. cbn [list_to_set]. by rewrite (right_id_L ∅ (∪)).
  - cbn [for_metrics] in Hout. rewrite metric_entry_output in Hout.
    cbn [mbind result_bind] in Hout.
    rewrite (IH _ Hout), dom_insert_L. cbn [list_to_set].
    by rewrite (comm_L (∪) {[m]} (dom acc)), (assoc_L (∪)).
Qed.

(** X20: the shaper's output has the key [date_range] and one key per known metric,
    and nothing else; unless a metric is itself called [date_range], that
    entry is the date range of the first row of the input, whatever metric
    the row is for. *)
Theorem engagement_ranges_keys (R : runtime) (S : settings) (EVENTS : list string)
    (obj : gmap string (list range_row)) (out : gmap string (list (string * value))) :
  get_engagement_ranges R S EVENTS obj = Ok out ->
  dom out = {["date_range"]} ∪ list_to_set EVENTS
  /\ ("date_range" ∉ EVENTS ->
      exists query_set date_range,
        obj !! "engagement_ranges" = Some query_set
        /\ data R (DateRangeSerializer S) (head query_set) = Ok date_range
        /\ out !! "date_range" = Some date_range).
Proof.
  unfold get_engagement_ranges. intros Hout.
  destruct (obj !! "engagement_ranges") as [query_set|]; [|discriminate Hout].
  rewrite first_or_none_head in Hout.
  destruct (data R (DateRangeSerializer S) (head query_set)) as [date_range|e] eqn:Hdate;
    [|discriminate Hout].
  cbn [mbind result_bind] in Hout. split.
  - rewrite (for_metrics_keys _ _ _ _ _ Hout). rewrite dom_singleton_L. reflexivity.
  - intros Hfresh. exists query_set, date_range. split; [done|]. split; [done|].
    destruct (for_metrics_output R EVENTS query_set {["date_range" := date_range]})
      as (out' & Hout' & _ & Hkept).
    rewrite Hout in Hout'. injection Hout' as <-.
    by rewrite (Hkept _ Hfresh), lookup_singleton_eq.
Qed.

Lemma engagement_ranges_keys_witness :
  exists out,
    get_engagement_ranges (Samples.runtime_ true) Samples.settings_ Samples.EVENTS
      Samples.metadata = Ok out
    /\ dom out = list_to_set ["date_range"; "videos_viewed"; "problems_attempted"].
Proof.
  assert (exists out,
            get_engagement_ranges (Samples.runtime_ true) Samples.settings_
              Samples.EVENTS Samples.metadata = Ok out) as [out Hout].
  { eexists. reflexivity. }
  exists out. split; [exact Hout|].
  destruct (engagement_ranges_keys (Samples.runtime_ true) Samples.settings_
              Samples.EVENTS Samples.metadata out Hout) as [-> _].
  reflexivity.
Defined.

(** X21: with no rows at all the shaper still returns: the date range has [None]
    for start and end, and every known metric has its three buckets, all
    [None]. *)
Theorem engagement_ranges_of_no_rows (R : runtime) (S : settings)
    (EVENTS : list string) (obj : gmap string (list range_row)) :
  obj !! "engagement_ranges" = Some [] ->
  exists out,
    get_engagement_ranges R S EVENTS obj = Ok out
    /\ ("date_range" ∉ EVENTS ->
        out !! "date_range" = Some [("start", VNone); ("end", VNone)])
    /\ forall m, m ∈ EVENTS ->
         out !! m
         = Some [("below_average", VNone); ("average", VNone); ("above_average", VNone)].
Proof.
  intros Hobj. unfold get_engagement_ranges. rewrite Hobj.
  cbn [first_or_none length bool_decide data get_initial DateRangeSerializer].
  change (data R (DateRangeSerializer S) (first_or_none []))
    with (Ok (A := list (string * value)) [("start", VNone); ("end", VNone)]).
  cbn [mbind result_bind].
  destruct (for_metrics_output R EVENTS []
              {["date_range" := [("start", VNone); ("end", VNone)]]})
    as (out & Hout & Hin & Hkept).
  exists out. split; [exact Hout|]. split.
  - intros Hfresh. by rewrite (Hkept _ Hfresh), lookup_singleton_eq.
  - intros m Hm. apply Hin; [exact Hm|]. by rewrite metric_entry_output.
Qed.

Lemma engagement_ranges_of_no_rows_witness :
  exists out,
    get_engagement_ranges (Samples.runtime_ false) Samples.settings_ Samples.EVENTS
      {["engagement_ranges" := []]} = Ok out
    /\ out !! "date_range" = Some [("start", VNone); ("end", VNone)].
Proof.
  destruct (engagement_ranges_of_no_rows (Samples.runtime_ false) Samples.settings_
              Samples.EVENTS {["engagement_ranges" := []]})
    as (out & Hout & Hdate & _); [reflexivity|].
  exists out. split; [exact Hout|].
  apply Hdate. by apply (bool_decide_unpack _).
Defined.

(** X22: what stops the shaper: a dict without [engagement_ranges] raises
    [KeyError], and when the dates of the first row cannot be rendered the
    error of the date range is the shaper's, whatever the metrics hold. *)
Theorem engagement_ranges_errors (R : runtime) (S : settings) (EVENTS : list string)
    (obj : gmap string (list range_row)) :
  (obj !! "engagement_ranges" = None ->
   get_engagement_ranges R S EVENTS obj = Raise (KeyError "engagement_ranges"))
  /\ (forall query_set e,
        obj !! "engagement_ranges" = Some query_set ->
        data R (DateRangeSerializer S) (head query_set) = Raise e ->
        get_engagement_ranges R S EVENTS obj = Raise e).
Proof.
  unfold get_engagement_ranges. split.
  - by intros ->.
  - intros query_set e -> He. by rewrite first_or_none_head, He.
Qed.

Lemma engagement_ranges_errors_witness :
  get_engagement_ranges (Samples.runtime_ true) Samples.settings_ Samples.EVENTS
    {["ranges" := Samples.ranges]} = Raise (KeyError "engagement_ranges").
Proof.
  apply (engagement_ranges_errors (Samples.runtime_ true) Samples.settings_
           Samples.EVENTS {["ranges" := Samples.ranges]}).
  reflexivity.
Defined.

(** ** Matching *)

Import Urls.

Lemma append_nil_l (s : string) : EmptyString +:+ s = s.
Proof. reflexivity. Qed.

Lemma append_cons (c : ascii) (s1 s2 : string) :
  String c s1 +:+ s2 = String c (s1 +:+ s2).
Proof. reflexivity. Qed.

Lemma append_nil_r (s : string) : s +:+ EmptyString = s.
Proof.
  induction s as [|c s IH]; [done|].
  change (String c (s +:+ EmptyString) = String c s). by rewrite IH.
Qed.

Lemma append_assoc (s1 s2 s3 : string) : (s1 +:+ s2) +:+ s3 = s1 +:+ (s2 +:+ s3).
Proof.
  induction s1 as [|c s1 IH]; [done|].
  change (String c ((s1 +:+ s2) +:+ s3) = String c (s1 +:+ (s2 +:+ s3))).
  by rewrite IH.
Qed.

Lemma append_eq_nil (s1 s2 : string) :
  s1 +:+ s2 = EmptyString -> s1 = EmptyString /\ s2 = EmptyString.
Proof. destruct s1; [done|discriminate]. Qed.

Lemma nullable_spec (r : regex) : nullable r = true <-> lang r EmptyString.
Proof.
  induction r as [| |p|r1 IH1 r2 IH2|r1 IH1 r2 IH2|r IH]; cbn [nullable].
  - split; [done|]. inversion 1.
  - split; [constructor|done].
  - split; [done|]. inversion 1.
  - rewrite andb_true_iff, IH1, IH2. split.
    + intros [H1 H2]. by apply (lang_cat r1 r2 EmptyString EmptyString).
    + inversion 1 as [| |? ? s1 s2 H1 H2 Heq| | | |]; subst.
      match goal with H : _ +:+ _ = EmptyString |- _ =>
        apply append_eq_nil in H as [-> ->] end. done.
  - rewrite orb_true_iff, IH1, IH2. split.
    + intros [H|H]; [by apply lang_alt_l|by apply lang_alt_r].
    + inversion 1; subst; auto.
  - split; [constructor|done].
Qed.

(** A non-empty string of [Star r] starts with a non-empty string of [r]. *)
Lemma lang_star_cons_inv (r : regex) (c : ascii) (s : string) :
  lang (Star r) (String c s) ->
  exists s1 s2, s = s1 +:+ s2 /\ lang r (String c s1) /\ lang (Star r) s2.
Proof.
  intros H. remember (Star r) as r' eqn:Hr. remember (String c s) as s' eqn:Hs.
  revert s Hs. induction H as [| | | | | |r0 s1 s2 H1 _ H2 IH2]; try discriminate.
  injection Hr as ->. intros s Hs.
  destruct s1 as [|c1 s1].
  - by apply IH2.
  - rewrite append_cons in Hs. injection Hs as -> <-. by exists s1, s2.
Qed.

Lemma deriv_spec (c : ascii) (r : regex) (s : string) :
  lang (deriv c r) s <-> lang r (String c s).
Proof.
  revert s.
  induction r as [| |p|r1 IH1 r2 IH2|r1 IH1 r2 IH2|r IH]; intros s; cbn [deriv].
  - split; inversion 1.
  - split; inversion 1.
  - destruct (p c) eqn:Hp; split.
    + inversion 1; subst. by constructor.
    + inversion 1; subst. constructor.
    + inversion 1.
    + inversion 1; subst. congruence.
  - assert (lang (Cat (deriv c r1) r2) s ->
            lang (Cat r1 r2) (String c s)) as Hleft.
    { inversion 1 as [| |? ? s1 s2 H1 H2| | | |]; subst.
      apply IH1 in H1. by apply (lang_cat r1 r2 (String c s1) s2). }
    assert (lang (Cat r1 r2) (String c s) ->
            lang (Cat (deriv c r1) r2) s
            \/ (lang r1 EmptyString /\ lang (deriv c r2) s)) as Hright.
    { inversion 1 as [| |? ? s1 s2 H1 H2 Heq| | | |]; subst.
      destruct s1 as [|c1 s1];
        match goal with H : _ +:+ _ = String _ _ |- _ =>
          rewrite ?append_nil_l, ?append_cons in H end.
      - right. split; [done|]. apply IH2. by subst.
      - match goal with H : String _ _ = String _ _ |- _ => injection H as -> <- end.
        left. apply lang_cat; [by apply IH1|done]. }
    destruct (nullable r1) eqn:Hn.
    + split.
      * inversion 1; subst; [by apply Hleft|].
        apply (lang_cat r1 r2 EmptyString (String c s));
          [by apply nullable_spec|by apply IH2].
      * intros H. destruct (Hright H) as [H'|[_ H']];
          [by apply lang_alt_l|by apply lang_alt_r].
    + split; [exact Hleft|].
      intros H. destruct (Hright H) as [H'|[H' _]]; [done|].
      apply nullable_spec in H'. congruence.
  - split.
    + inversion 1; subst; [apply lang_alt_l|apply lang_alt_r]; by (apply IH1 || apply IH2).
    + inversion 1; subst; [apply lang_alt_l|apply lang_alt_r]; by (apply IH1 || apply IH2).
  - split.
    + inversion 1 as [| |? ? s1 s2 H1 H2| | | |]; subst.
      apply IH in H1. by apply (lang_star_cons r (String c s1) s2).
    + intros H. apply lang_star_cons_inv in H as (s1 & s2 & -> & H1 & H2).
      apply lang_cat; [by apply IH|done].
Qed.

(** Matching by derivatives decides the language of the pattern. *)
Lemma fullmatch_spec (r : regex) (s : string) : fullmatch r s = true <-> lang r s.
Proof.
  revert r. induction s as [|c s IH]; intros r; cbn [fullmatch].
  - apply nullable_spec.
  - rewrite IH. apply deriv_spec.
Qed.

Lemma lang_cat_iff (r1 r2 : regex) (s : string) :
  lang (Cat r1 r2) s <-> exists s1 s2, s = s1 +:+ s2 /\ lang r1 s1 /\ lang r2 s2.
Proof.
  split.
  - inversion 1; subst. by eexists _, _.
  - intros (s1 & s2 & -> & H1 & H2). by constructor.
Qed.

Lemma lang_chars_iff (p : ascii -> bool) (s : string) :
  lang (Chars p) s <-> exists c, s = String c EmptyString /\ p c = true.
Proof.
  split.
  - inversion 1; subst. by eexists.
  - intros (c & -> & Hc). by constructor.
Qed.

Lemma lang_star_chars (p : ascii -> bool) (s : string) :
  lang (Star (Chars p)) s <-> all_chars p s = true.
Proof.
  split.
  - intros H. remember (Star (Chars p)) as r eqn:Hr.
    induction H as [| | | | | |r0 s1 s2 H1 _ H2 IH2]; try discriminate; [done|].
    injection Hr as ->. inversion H1; subst.
    rewrite append_cons, append_nil_l. cbn [all_chars].
    apply andb_true_intro. split; [done|by apply IH2].
  - induction s as [|c s IH]; [constructor|].
    cbn [all_chars]. intros H. apply andb_prop in H as [Hc Hs].
    apply (lang_star_cons (Chars p) (String c EmptyString) s); [by constructor|].
    by apply IH.
Qed.

Lemma lang_plus_chars (p : ascii -> bool) (s : string) :
  lang (Plus (Chars p)) s <-> s <> EmptyString /\ all_chars p s = true.
Proof.
  unfold Plus. rewrite lang_cat_iff. split.
  - intros (s1 & s2 & -> & H1 & H2).
    apply lang_chars_iff in H1 as (c & -> & Hc). apply lang_star_chars in H2.
    rewrite append_cons, append_nil_l. cbn [all_chars]. by rewrite Hc, H2.
  - intros [Hne Hall]. destruct s as [|c s]; [done|].
    cbn [all_chars] in Hall. apply andb_prop in Hall as [Hc Hs].
    exists (String c EmptyString), s. split; [done|].
    split; [by constructor|by apply lang_star_chars].
Qed.

(** The strings of the pattern, taken apart. *)
Lemma course_id_lang (s : string) :
  lang COURSE_ID_PATTERN s <->
  exists org sep1 course sep2 run,
    s = org +:+ String sep1 (course +:+ String sep2 run)
    /\ org <> EmptyString /\ course <> EmptyString /\ run <> EmptyString
    /\ all_chars not_slash_or_plus org = true
    /\ all_chars not_slash_or_plus course = true
    /\ all_chars not_slash run = true
    /\ slash_or_plus sep1 = true /\ slash_or_plus sep2 = true.
Proof.
  unfold COURSE_ID_PATTERN. split.
  - intros H.
    apply lang_cat_iff in H as (org & rest & -> & Horg & H).
    apply lang_cat_iff in H as (s1 & rest' & -> & Hs1 & H).
    apply lang_cat_iff in H as (course & rest'' & -> & Hcourse & H).
    apply lang_cat_iff in H as (s2 & run & -> & Hs2 & Hrun).
    apply lang_chars_iff in Hs1 as (sep1 & -> & Hsep1).
    apply lang_chars_iff in Hs2 as (sep2 & -> & Hsep2).
    apply lang_plus_chars in Horg as [? ?], Hcourse as [? ?], Hrun as [? ?].
    exists org, sep1, course, sep2, run. by repeat split.
  - intros (org & sep1 & course & sep2 & run & -> & ? & ? & ? & ? & ? & ? & ? & ?).
    apply lang_cat_iff. exists org, (String sep1 (course +:+ String sep2 run)).
    split; [done|]. split; [by apply lang_plus_chars|].
    apply (lang_cat _ _ (String sep1 EmptyString)); [by constructor|].
    apply lang_cat; [by apply lang_plus_chars|].
    apply (lang_cat _ _ (String sep2 EmptyString)); [by constructor|].
    by apply lang_plus_chars.
Qed.

(** X23: a string is a course id for the pattern exactly when it is made of three
    non-empty parts joined by two separators, each a slash or a plus: the
    first two parts have neither character, the third has no slash but may
    have pluses. *)
Theorem course_id_pattern_matches (s : string) :
  fullmatch COURSE_ID_PATTERN s = true <->
  exists org sep1 course sep2 run,
    s = org +:+ String sep1 (course +:+ String sep2 run)
    /\ org <> EmptyString /\ course <> EmptyString /\ run <> EmptyString
    /\ all_chars not_slash_or_plus org = true
    /\ all_chars not_slash_or_plus course = true
    /\ all_chars not_slash run = true
    /\ slash_or_plus sep1 = true /\ slash_or_plus sep2 = true.
Proof. rewrite fullmatch_spec. apply course_id_lang. Qed.

Lemma course_id_pattern_matches_witness :
  fullmatch COURSE_ID_PATTERN "course-v1:edX+DemoX+Demo_Course" = true
  /\ fullmatch COURSE_ID_PATTERN "edX/DemoX/Demo+Course" = true
  /\ fullmatch COURSE_ID_PATTERN "edX/DemoX/Demo/Course" = false.
Proof.
  split; [|split].
  - apply (proj2 (course_id_pattern_matches "course-v1:edX+DemoX+Demo_Course")).
    exists "course-v1:edX", "+"%char, "DemoX", "+"%char, "Demo_Course".
    by repeat split.
  - apply (proj2 (course_id_pattern_matches "edX/DemoX/Demo+Course")).
    exists "edX", "/"%char, "DemoX", "/"%char, "Demo+Course".
    by repeat split.
  - reflexivity.
Defined.

Lemma count_chars_app (p : ascii -> bool) (s1 s2 : string) :
  count_chars p (s1 +:+ s2) = (count_chars p s1 + count_chars p s2)%nat.
Proof.
  induction s1 as [|c s1 IH]; [done|].
  rewrite append_cons. cbn [count_chars]. rewrite IH. lia.
Qed.

Lemma count_chars_none (p q : ascii -> bool) (s : string) :
  (forall c, p c = true -> q c = false) ->
  all_chars q s = true -> count_chars p s = 0%nat.
Proof.
  intros Hpq. induction s as [|c s IH]; [done|]. cbn [all_chars count_chars].
  intros H. apply andb_prop in H as [Hc Hs]. rewrite (IH Hs).
  destruct (p c) eqn:Hp; [|done]. apply Hpq in Hp. congruence.
Qed.

(** X24: a course id has at most two slashes, and at least two characters that
    are a slash or a plus: a string without separators is no course id, and a
    slash after the second separator ends the id. *)
Theorem course_id_separators (s : string) :
  fullmatch COURSE_ID_PATTERN s = true ->
  (count_chars (fun c => Ascii.eqb c "/") s <= 2)%nat
  /\ (2 <= count_chars slash_or_plus s)%nat.
Proof.
  intros H. apply fullmatch_spec, course_id_lang in H
    as (org & sep1 & course & sep2 & run & -> & _ & _ & _ & Horg & Hcourse & Hrun
        & Hsep1 & Hsep2).
  rewrite !count_chars_app. cbn [count_chars]. rewrite !count_chars_app.
  cbn [count_chars]. rewrite Hsep1, Hsep2.
  rewrite (count_chars_none (fun c => Ascii.eqb c "/") not_slash_or_plus org),
    (count_chars_none (fun c => Ascii.eqb c "/") not_slash_or_plus course),
    (count_chars_none (fun c => Ascii.eqb c "/") not_slash run); try done.
  - split; [|lia]. destruct (Ascii.eqb sep1 "/"), (Ascii.eqb sep2 "/"); cbn; lia.
  - intros c Hc. unfold not_slash. by rewrite Hc.
  - intros c Hc. unfold not_slash_or_plus, slash_or_plus. by rewrite Hc.
  - intros c Hc. unfold not_slash_or_plus, slash_or_plus. by rewrite Hc.
Qed.

Lemma course_id_separators_witness :
  (count_chars (fun c => Ascii.eqb c "/") "edX/DemoX/Demo+Course" <= 2)%nat.
Proof.
  apply (course_id_separators "edX/DemoX/Demo+Course"). reflexivity.
Defined.
